(** * charts_AEP: the upload normaliser, the dashboard filter and the chart engine

    A shallow embedding of [utils/data_processing.py], [utils/charting.py],
    [Home.py], [pages/Dashboard.py] and [streamlit_app.py].

    Python values produced by [json.load] are the inductive [json]; a Python
    [dict] is the list of its assignments in the order they were made (the last
    binding of a key is its value, the first one fixes its position, which is
    what the column order of a [pandas.DataFrame] built from records follows).
    Exceptions are values of [result].  The operations of pandas that the
    program calls and whose behaviour depends on pandas' internals (timestamp
    parsing, dtype inference, the default sort, the order of group keys) are
    the fields of the class [Pandas]; the part of their documented contract
    that the proofs rely on is the class [PandasLaws]; [pandas_ref] is an
    executable instance, and [pandas_ref_laws] shows that it meets the
    contract.

    Instants are integers: nanoseconds since 1970-01-01T00:00:00Z, the
    representation of [pandas.Timestamp].  Calendar dates are days since
    1970-01-01.  JSON numbers are rationals. *)

From Stdlib Require Import ZArith QArith List String Ascii Bool Lia.
From Stdlib Require Import Permutation Sorted.
Import ListNotations.
Local Open Scope string_scope.
Local Open Scope list_scope.
Local Open Scope Z_scope.
Set Warnings "-register-all".

(** ** Python values *)

Inductive json : Type :=
| JNull
| JBool (b : bool)
| JNum (q : Q)
| JStr (s : string)
| JList (l : list json)
| JDict (kvs : list (string * json)).

Definition dict := list (string * json).

Inductive exn := KeyError | TypeError | AttributeError | JSONDecodeError.

Inductive result (A : Type) : Type :=
| Ok (a : A)
| Raise (e : exn).
Arguments Ok {A} a.
Arguments Raise {A} e.

Definition bind {A B} (c : result A) (k : A -> result B) : result B :=
  match c with
  | Ok a => k a
  | Raise e => Raise e
  end.

Notation "x <- c ;; k" := (bind c (fun x => k))
  (at level 61, c at next level, right associativity).

Fixpoint mapM {A B} (f : A -> result B) (l : list A) : result (list B) :=
  match l with
  | [] => Ok []
  | a :: l' => b <- f a ;; bs <- mapM f l' ;; Ok (b :: bs)
  end.

(** [d[k]] when bound: the last assignment to [k]. *)
Fixpoint dict_get (k : string) (d : dict) : option json :=
  match d with
  | [] => None
  | (k', v) :: d' =>
      match dict_get k d' with
      | Some w => Some w
      | None => if String.eqb k k' then Some v else None
      end
  end.

(** [k in d]. *)
Definition dict_contains (k : string) (d : dict) : bool :=
  existsb (fun kv => String.eqb k (fst kv)) d.

(** [dict.get(k)]: [None] when the key is absent. *)
Definition dict_get_default (k : string) (d : dict) : json :=
  match dict_get k d with
  | Some v => v
  | None => JNull
  end.

(** [d[k]], raising [KeyError]. *)
Definition getitem (d : dict) (k : string) : result json :=
  match dict_get k d with
  | Some v => Ok v
  | None => Raise KeyError
  end.

(** Keys in insertion order. *)
Definition first_seen (l : list string) : list string :=
  rev (nodup string_dec (rev l)).

Definition dict_keys (d : dict) : list string := first_seen (map fst d).

(** [d[k] = v] and [d.update(d')]. *)
Definition dict_set (k : string) (v : json) (d : dict) : dict := d ++ [(k, v)].
Definition dict_update (d d' : dict) : dict := d ++ d'.

(** The number a value counts as in arithmetic and comparisons ([True == 1]). *)
Definition json_number (v : json) : option Q :=
  match v with
  | JNum q => Some q
  | JBool true => Some (1 # 1)%Q
  | JBool false => Some (0 # 1)%Q
  | _ => None
  end.

(** [a == b] on scalar cells; a missing value equals nothing. *)
Definition py_eqb (a b : json) : bool :=
  match a, b with
  | JStr s, JStr t => String.eqb s t
  | _, _ =>
      match json_number a, json_number b with
      | Some p, Some q => Qeq_bool p q
      | _, _ => false
      end
  end.

Definition isnull (v : json) : bool :=
  match v with
  | JNull => true
  | _ => false
  end.

(** ** Data frames *)

Inductive dtype := Number | Datetime | Object.

(** A row keeps the flat record it was built from and, apart, the cell of the
    converted [timestamp] column ([None] is [NaT]). *)
Record Row := { time : option Z; fields : dict }.

Record DataFrame := { dtypes : list (string * dtype); rows : list Row }.

Definition columns (df : DataFrame) : list string := map fst (dtypes df).

(** [pd.DataFrame()]. *)
Definition pd_DataFrame : DataFrame := {| dtypes := []; rows := [] |}.

(** [df.empty]: an axis of length zero. *)
Definition empty (df : DataFrame) : bool :=
  match dtypes df, rows df with
  | [], _ => true
  | _, [] => true
  | _, _ => false
  end.

Definition has_column (df : DataFrame) (c : string) : bool :=
  existsb (String.eqb c) (columns df).

(** [row[c]] for a column other than [timestamp]: a key the record lacks is a
    missing value. *)
Definition cell (r : Row) (c : string) : json := dict_get_default c (fields r).

(** Order of the [timestamp] column, [NaT] last. *)
Definition time_le (a b : option Z) : Prop :=
  match a, b with
  | Some x, Some y => x <= y
  | _, None => True
  | None, Some _ => False
  end.

Definition time_leb (a b : option Z) : bool :=
  match a, b with
  | Some x, Some y => x <=? y
  | _, None => true
  | None, Some _ => false
  end.

Definition hashable (v : json) : bool :=
  match v with
  | JList _ | JDict _ => false
  | _ => true
  end.

(** ** The pandas operations the program relies on *)

Class Pandas := {
  (** [pd.to_datetime(col, errors='coerce', utc=True)] on a whole column: it
      may raise (a column of booleans), otherwise every cell becomes an
      instant or [NaT]. *)
  pd_to_datetime : list json -> result (list (option Z));
  (** dtype inference of a column of a frame built from records: is it a
      number dtype?  [None] is a key the record lacks. *)
  numeric_dtype : list (option json) -> bool;
  (** [sort_values('timestamp')] with the default [kind='quicksort']. *)
  sort_values : list Row -> list Row;
  (** The order in which [groupby] presents its distinct keys. *)
  sort_keys : list json -> list json
}.

(** What the proofs rely on: the converted column is as long as the column
    and a missing value converts to [NaT]; a column with text is not a number
    dtype; [sort_values] puts the rows in
    ascending order (nothing is promised about rows with equal keys, the
    default sort not being a stable one); [groupby] presents each key once. *)
Class PandasLaws (P : Pandas) : Prop := {
  pd_to_datetime_length :
    forall col ts, pd_to_datetime col = Ok ts -> List.length ts = List.length col;
  pd_to_datetime_null :
    forall col ts i, pd_to_datetime col = Ok ts ->
      nth_error col i = Some JNull -> nth_error ts i = Some None;
  numeric_dtype_text :
    forall col s, In (Some (JStr s)) col -> numeric_dtype col = false;
  sort_values_perm : forall l, Permutation (sort_values l) l;
  sort_values_sorted :
    forall l, StronglySorted (fun a b => time_le (time a) (time b)) (sort_values l);
  sort_keys_perm : forall l, Permutation (sort_keys l) l
}.

(** ** utils/data_processing.py *)

(** What [json.load] does on the uploaded file. *)
Inductive UploadedFile :=
| Malformed
| Content (data : json).

Definition json_load (f : UploadedFile) : result json :=
  match f with
  | Malformed => Raise JSONDecodeError
  | Content data => Ok data
  end.

Definition chars (s : string) : list json :=
  map (fun c => JStr (String c EmptyString)) (list_ascii_of_string s).

(** [for entry in data]. *)
Definition iterate (data : json) : result (list json) :=
  match data with
  | JList l => Ok l
  | JDict kvs => Ok (map JStr (dict_keys kvs))
  | JStr s => Ok (chars s)
  | _ => Raise TypeError
  end.

(** [entry.get(k)]. *)
Definition get (entry : json) (k : string) : result json :=
  match entry with
  | JDict kvs => Ok (dict_get_default k kvs)
  | _ => Raise AttributeError
  end.

(** ['parameters' in entry and isinstance(entry['parameters'], dict)]. *)
Definition parameters (entry : json) : option dict :=
  match entry with
  | JDict kvs =>
      match dict_get "parameters" kvs with
      | Some (JDict params) => Some params
      | _ => None
      end
  | _ => None
  end.

(** The body of the loop: one flat record per entry. *)
Definition flat_record (entry : json) : result dict :=
  pld <- get entry "pld" ;;
  asset_type <- get entry "asset_type" ;;
  timestamp <- get entry "timestamp" ;;
  let flat := [("pld", pld); ("asset_type", asset_type); ("timestamp", timestamp)] in
  match parameters entry with
  | Some params => Ok (dict_update flat params)
  | None => Ok flat
  end.

(** Columns of [pd.DataFrame(records)]: the keys in first-seen order. *)
Definition frame_columns (records : list dict) : list string :=
  dict_keys (List.concat records).

Definition column_values (c : string) (records : list dict) : list (option json) :=
  map (dict_get c) records.

Definition is_NaT (t : option Z) : bool :=
  match t with
  | None => true
  | Some _ => false
  end.

(** [df.dropna(subset=['timestamp'])] after the conversion. *)
Definition dropna (l : list Row) : list Row :=
  filter (fun r => negb (is_NaT (time r))) l.

(** A record and the converted cell of its [timestamp]. *)
Definition make_row (p : dict * option Z) : Row := {| time := snd p; fields := fst p |}.




Definition reserved : list string := ["pld"; "asset_type"; "timestamp"].

Inductive outcome :=
| Loaded (df : DataFrame)
| SchemaError
| IngestError (e : exn).

Section Normalizer.
Context {P : Pandas}.

Definition column_dtype (records : list dict) (c : string) : dtype :=
  if String.eqb c "timestamp" then Datetime
  else if numeric_dtype (column_values c records) then Number
  else Object.

(** The [try] block; the two [st.error] branches are the two error outcomes. *)
Definition ingest (uploaded_file : UploadedFile) : outcome :=
  match
    (data <- json_load uploaded_file ;;
     entries <- iterate data ;;
     records <- mapM flat_record entries ;;
     if negb (existsb (String.eqb "timestamp") (frame_columns records))
     then Ok None
     else
       ts <- pd_to_datetime (map (dict_get_default "timestamp") records) ;;
       let all_rows := map make_row (combine records ts) in
       Ok (Some {| dtypes := map (fun c => (c, column_dtype records c)) (frame_columns records);
                   rows := dropna all_rows |}))
  with
  | Ok (Some df) => Loaded df
  | Ok None => SchemaError
  | Raise e => IngestError e
  end.

Definition load_and_process_data (uploaded_file : option UploadedFile) : DataFrame :=
  match uploaded_file with
  | None => pd_DataFrame
  | Some f =>
      match ingest f with
      | Loaded df => df
      | SchemaError => pd_DataFrame
      | IngestError _ => pd_DataFrame
      end
  end.

End Normalizer.

(** ** Home.py and streamlit_app.py: the session and the upload handler *)

Record SessionState := {
  data : DataFrame;
  charts : list dict;
  show_modal : bool
}.

Definition initial_state : SessionState :=
  {| data := pd_DataFrame; charts := []; show_modal := false |}.

Section Session.
Context {P : Pandas}.

(** [if uploaded_file is not None: ...]: the dataset is assigned first, the
    chart list is reset under the guard [if not st.session_state.data.empty]. *)
Definition upload (uploaded_file : option UploadedFile) (st : SessionState) : SessionState :=
  match uploaded_file with
  | None => st
  | Some f =>
      let new_data := load_and_process_data (Some f) in
      if negb (empty new_data)
      then {| data := new_data; charts := []; show_modal := show_modal st |}
      else {| data := new_data; charts := charts st; show_modal := show_modal st |}
  end.

End Session.

(** ** pages/Dashboard.py: the date bounds and the per-chart filter *)

Definition ns_per_second : Z := 1000000000.
Definition ns_per_day : Z := 86400 * ns_per_second.

(** [pd.Timedelta(days=d, seconds=s)]. *)
Definition Timedelta (days seconds : Z) : Z := days * ns_per_day + seconds * ns_per_second.

(** [pd.Timestamp(date, tz=df_timezone)]; the column was built with
    [utc=True], so [df_timezone] is UTC. *)
Definition Timestamp (date : Z) : Z := date * ns_per_day.

Definition from_datetime (from_date : Z) : Z := Timestamp from_date.

Definition to_datetime (to_date : Z) : Z :=
  Timestamp to_date + Timedelta 1 0 - Timedelta 0 1.

(** [(df['timestamp'] >= from_datetime) & (df['timestamp'] <= to_datetime)];
    a comparison with [NaT] is false. *)
Definition in_date_range (from_date to_date : Z) (t : option Z) : bool :=
  match t with
  | Some x => (from_datetime from_date <=? x) && (x <=? to_datetime to_date)
  | None => false
  end.

Definition chart_row (asset_type : json) (from_date to_date : Z) (r : Row) : bool :=
  py_eqb (cell r "asset_type") asset_type && in_date_range from_date to_date (time r).

Definition chart_df (df : DataFrame) (config : dict) (from_date to_date : Z) : result DataFrame :=
  asset_type <- getitem config "asset_type" ;;
  Ok {| dtypes := dtypes df;
        rows := filter (chart_row asset_type from_date to_date) (rows df) |}.

(** The last instant of a day at microsecond precision: 23:59:59.999999. *)
Definition end_of_day (date : Z) : Z := Timestamp date + Timedelta 0 86399 + 999999000.

(** ** utils/charting.py: the configuration dialog *)

(** Two cells are the same key of [unique] and [groupby]. *)
Definition same_key (a b : json) : bool :=
  (isnull a && isnull b) || py_eqb a b.

Fixpoint dedup (l : list json) : list json :=
  match l with
  | [] => []
  | x :: l' => x :: filter (fun y => negb (same_key x y)) (dedup l')
  end.

(** [df[c].unique().tolist()]: first-seen order, missing values included. *)
Definition unique (df : DataFrame) (c : string) : result (list json) :=
  if negb (has_column df c) then Raise KeyError
  else
    let col := map (fun r => cell r c) (rows df) in
    if forallb hashable col then Ok (dedup col) else Raise TypeError.

(** The state of the widgets of the dialog: what the user picked. *)
Record Widgets := {
  asset_type_choice : nat;
  chart_type_choice : nat;
  parameter_choice : nat;
  display_mode_choice : nat;
  aggregation_choice : nat;
  parameters_choice : list nat;
  min_val_input : Z;
  max_val_input : Z;
  add_to_dashboard : bool
}.

(** [st.selectbox] and [st.radio] return one of the options, the first one by
    default, [None] when there is none. *)
Definition selectbox (options : list json) (choice : nat) : json :=
  nth choice options (hd JNull options).

(** [st.multiselect]: the picked options. *)
Definition multiselect (options : list json) (choice : list nat) : list json :=
  flat_map (fun i => match nth_error options i with Some o => [o] | None => [] end) choice.

Definition number_input (value : Z) : json := JNum (inject_Z value).

Definition modal_df (df : DataFrame) (modal_asset_type : json) : DataFrame :=
  {| dtypes := dtypes df;
     rows := filter (fun r => py_eqb (cell r "asset_type") modal_asset_type) (rows df) |}.

Definition is_number (d : dtype) : bool :=
  match d with
  | Number => true
  | _ => false
  end.

(** [modal_df.select_dtypes(include=['number']).columns.tolist()]. *)
Definition numeric_cols (mdf : DataFrame) : list string :=
  map fst (filter (fun cd => is_number (snd cd)) (dtypes mdf)).

(** [modal_df.columns.tolist()]. *)
Definition all_cols (mdf : DataFrame) : list string := columns mdf.

(** The reading of the specification, for comparison: a column is present
    for an asset type when a record of that type has the key. *)
Definition present_for (df : DataFrame) (asset_type : json) (c : string) : bool :=
  existsb (fun r => py_eqb (cell r "asset_type") asset_type && dict_contains c (fields r))
          (rows df).

Definition chart_types : list json :=
  [JStr "Line Chart"; JStr "Tabular Data"; JStr "Big Number"; JStr "Gauge"].

(** The dictionary the dialog fills in, key by key. *)
Definition dialog_config (df : DataFrame) (w : Widgets) : result dict :=
  asset_types <- unique df "asset_type" ;;
  let chart_config := [] in
  let modal_asset_type := selectbox asset_types (asset_type_choice w) in
  let chart_config := dict_set "asset_type" modal_asset_type chart_config in
  let mdf := modal_df df modal_asset_type in
  let numeric := map JStr (numeric_cols mdf) in
  let all := map JStr (all_cols mdf) in
  let chart_type := selectbox chart_types (chart_type_choice w) in
  let chart_config := dict_set "type" chart_type chart_config in
  if py_eqb chart_type (JStr "Line Chart") then
    let chart_config := dict_set "parameter" (selectbox numeric (parameter_choice w)) chart_config in
    let display_mode := selectbox [JStr "Individual"; JStr "Grouped"] (display_mode_choice w) in
    let chart_config := dict_set "display_mode" display_mode chart_config in
    if py_eqb display_mode (JStr "Grouped")
    then Ok (dict_set "aggregation"
               (selectbox [JStr "sum"; JStr "mean"] (aggregation_choice w)) chart_config)
    else Ok chart_config
  else if py_eqb chart_type (JStr "Tabular Data") then
    Ok (dict_set "parameters" (JList (multiselect all (parameters_choice w))) chart_config)
  else if py_eqb chart_type (JStr "Big Number") then
    let chart_config := dict_set "parameter" (selectbox numeric (parameter_choice w)) chart_config in
    Ok (dict_set "aggregation"
          (selectbox [JStr "sum"; JStr "mean"] (aggregation_choice w)) chart_config)
  else if py_eqb chart_type (JStr "Gauge") then
    let chart_config := dict_set "parameter" (selectbox numeric (parameter_choice w)) chart_config in
    let chart_config := dict_set "min_val" (number_input (min_val_input w)) chart_config in
    Ok (dict_set "max_val" (number_input (max_val_input w)) chart_config)
  else Ok chart_config.

(** The dictionaries the dialog builds for a line chart and a big number. *)
Definition individual_config (asset_type param : json) : dict :=
  [("asset_type", asset_type); ("type", JStr "Line Chart"); ("parameter", param);
   ("display_mode", JStr "Individual")].

Definition grouped_config (asset_type param agg_func : json) : dict :=
  [("asset_type", asset_type); ("type", JStr "Line Chart"); ("parameter", param);
   ("display_mode", JStr "Grouped"); ("aggregation", agg_func)].

Definition big_number_config (asset_type param agg_func : json) : dict :=
  [("asset_type", asset_type); ("type", JStr "Big Number"); ("parameter", param);
   ("aggregation", agg_func)].

(** [configure_chart_dialog]: on "Add to Dashboard" the dictionary is appended
    to the chart list as it stands. *)
Definition configure_chart_dialog (df : DataFrame) (w : Widgets) (st : SessionState)
  : result SessionState :=
  chart_config <- dialog_config df w ;;
  if add_to_dashboard w
  then Ok {| data := data st; charts := charts st ++ [chart_config]; show_modal := false |}
  else Ok st.

(** ** utils/charting.py: the renderers *)

(** What [row[c]] evaluates to: a value of the record, or the converted
    timestamp. *)
Inductive cellv :=
| Val (v : json)
| Instant (t : option Z).

Definition missing (v : cellv) : bool :=
  match v with
  | Val JNull => true
  | Instant None => true
  | _ => false
  end.

(** [c in df.columns], for a label taken from the configuration. *)
Definition in_columns (df : DataFrame) (c : json) : bool :=
  match c with
  | JStr s => has_column df s
  | _ => false
  end.

(** The cell of a row in a column of the frame. *)
Definition row_value (s : string) (r : Row) : cellv :=
  if String.eqb s "timestamp" then Instant (time r) else Val (cell r s).

(** [row[c]]. *)
Definition row_getitem (df : DataFrame) (c : json) (r : Row) : result cellv :=
  match c with
  | JStr s => if has_column df s then Ok (row_value s r) else Raise KeyError
  | _ => Raise KeyError
  end.

(** A Python float: a number, read as a rational, or [NaN]. *)
Inductive float :=
| Fin (q : Q)
| NaN.

(** The numbers of a column, missing values skipped ([skipna]); text, nested
    values and instants are not summable. *)
Fixpoint numbers (vals : list cellv) : result (list Q) :=
  match vals with
  | [] => Ok []
  | v :: l =>
      if missing v then numbers l
      else
        match v with
        | Val j =>
            match json_number j with
            | Some q => qs <- numbers l ;; Ok (q :: qs)
            | None => Raise TypeError
            end
        | Instant _ => Raise TypeError
        end
  end.

Definition Qsum (qs : list Q) : Q := Qred (fold_left Qplus qs (0 # 1)%Q).

(** [Series.sum()] and [Series.mean()]. *)
Definition series_sum (vals : list cellv) : result float :=
  qs <- numbers vals ;; Ok (Fin (Qsum qs)).

Definition series_mean (vals : list cellv) : result float :=
  qs <- numbers vals ;;
  match qs with
  | [] => Ok NaN
  | _ => Ok (Fin (Qred (Qsum qs / inject_Z (Z.of_nat (List.length qs)))))
  end.

(** The rows of one group of [groupby(c)], in the order of the frame. *)
Definition group (l : list Row) (c : string) (k : json) : list Row :=
  filter (fun r => py_eqb (cell r c) k) l.

Definition notnull (v : json) : bool := negb (isnull v).

(** The name of a series: the [pld] of an individual series, or the f-string
    of the parameter and the aggregation, kept as its two arguments. *)
Inductive series_name :=
| Pld (pld_id : json)
| Aggregate (parameter agg_func : json).

(** An entry of [series_data]: the name and the data, a list of pairs of a
    timestamp (printed as text by the code, kept as the instant here) and a
    value. *)
Record Series := { name : series_name; points : list (option Z * cellv) }.

Definition float_cell (x : float) : cellv :=
  match x with
  | Fin q => Val (JNum q)
  | NaN => Val JNull
  end.

Definition day_of (t : Z) : Z := t / ns_per_day.

Definition times (l : list Row) : list Z :=
  flat_map (fun r => match time r with Some t => [t] | None => [] end) l.

(** The bins of [pd.Grouper(key='timestamp', freq='D')]: every day from the
    day of the earliest row to the day of the latest one. *)
Definition day_bins (l : list Row) : list Z :=
  match times l with
  | [] => []
  | t :: ts =>
      let lo := day_of (fold_right Z.min t ts) in
      let hi := day_of (fold_right Z.max t ts) in
      map (fun i => lo + Z.of_nat i) (seq 0 (Z.to_nat (hi - lo + 1)))
  end.

Definition in_bin (d : Z) (r : Row) : bool :=
  match time r with
  | Some t => day_of t =? d
  | None => false
  end.

(** [.agg(agg_func)] for the two names the dialog offers; any other name
    is outside the model, which raises. *)
Definition agg (agg_func : json) (vals : list cellv) : result float :=
  if py_eqb agg_func (JStr "sum") then series_sum vals
  else if py_eqb agg_func (JStr "mean") then series_mean vals
  else Raise AttributeError.

Definition grouped_point (df : DataFrame) (param agg_func : json) (d : Z)
  : result (option Z * cellv) :=
  vals <- mapM (row_getitem df param) (filter (in_bin d) (rows df)) ;;
  v <- agg agg_func vals ;;
  Ok (Some (Timestamp d), float_cell v).

Definition grouped_series (df : DataFrame) (param agg_func : json) : result Series :=
  if negb (has_column df "timestamp") then Raise KeyError
  else if negb (in_columns df param) then Raise KeyError
  else
    data <- mapM (grouped_point df param agg_func) (day_bins (rows df)) ;;
    Ok {| name := Aggregate param agg_func; points := data |}.

(** A cell that [sum] and [mean] accept: a number or a missing value. *)
Definition summable (v : cellv) : bool :=
  missing v
  || match v with
     | Val j => match json_number j with Some _ => true | None => false end
     | Instant _ => false
     end.

(** What an empty bin aggregates to: [0] for [sum], [NaN] for [mean]. *)
Definition empty_bin_value (agg_func : json) : cellv :=
  if py_eqb agg_func (JStr "sum") then Val (JNum (0 # 1)%Q) else Val JNull.

(** The last valid entry of a column of a group ([GroupBy.last]). *)
Definition last_valid (vals : list cellv) : cellv :=
  fold_left (fun acc v => if missing v then acc else v) vals (Val JNull).


(** The value shown by [st.metric]: "N/A", or the number that the f-string
    prints with two decimals. *)
Inductive metric :=
| NA
| Formatted (value : float).

(** [df['pld']]. *)
Definition pld_column (df : DataFrame) : list json := map (fun r => cell r "pld") (rows df).






Section Charting.
Context {P : Pandas}.

(** The keys of [df.groupby(c)]: distinct, missing keys dropped. *)
Definition groupby_keys (df : DataFrame) (c : string) : result (list json) :=
  if negb (has_column df c) then Raise KeyError
  else
    let col := map (fun r => cell r c) (rows df) in
    if forallb hashable col then Ok (sort_keys (dedup (filter notnull col)))
    else Raise TypeError.

Definition individual_series (df : DataFrame) (param pld_id : json) : result Series :=
  let grp := sort_values (group (rows df) "pld" pld_id) in
  chart_data <- mapM (fun row => v <- row_getitem df param row ;; Ok (time row, v)) grp ;;
  Ok {| name := Pld pld_id; points := chart_data |}.

Definition render_line_chart (df : DataFrame) (config : dict) : result (list Series) :=
  param <- getitem config "parameter" ;;
  _ <- getitem config "asset_type" ;;
  display_mode <- getitem config "display_mode" ;;
  if py_eqb display_mode (JStr "Individual") then
    keys <- groupby_keys df "pld" ;;
    mapM (individual_series df param) keys
  else
    agg_func <- getitem config "aggregation" ;;
    s <- grouped_series df param agg_func ;;
    Ok [s].

(** [df.sort_values('timestamp')]. *)
Definition sorted_frame (df : DataFrame) : DataFrame :=
  {| dtypes := dtypes df; rows := sort_values (rows df) |}.

(** [df.sort_values('timestamp').groupby('pld').last()[param]]. *)
Definition latest_values (df : DataFrame) (param : json) : result (list cellv) :=
  let sorted := sorted_frame df in
  keys <- groupby_keys sorted "pld" ;;
  mapM (fun k => vals <- mapM (row_getitem df param) (group (rows sorted) "pld" k) ;;
                 Ok (last_valid vals)) keys.

Definition render_big_number (df : DataFrame) (config : dict) : result metric :=
  param <- getitem config "parameter" ;;
  _ <- getitem config "asset_type" ;;
  if negb (empty df) && in_columns df param then
    latest <- latest_values df param ;;
    aggregation <- getitem config "aggregation" ;;
    value <- (if py_eqb aggregation (JStr "sum") then series_sum latest
              else series_mean latest) ;;
    Ok (Formatted value)
  else
    _ <- getitem config "aggregation" ;;
    Ok NA.




End Charting.

(** ** An executable instance of the pandas operations *)

(** Timestamps: ISO-8601 text in UTC, [YYYY-MM-DDTHH:MM:SS[.f{1,9}]Z], the
    format of the ingestion interface; pandas accepts more. *)
Definition digit (c : ascii) : option Z :=
  let n := nat_of_ascii c in
  if (Nat.leb 48 n && Nat.leb n 57)%bool then Some (Z.of_nat (n - 48)) else None.

Fixpoint digits (l : list ascii) (acc : Z) : option Z :=
  match l with
  | [] => Some acc
  | c :: l' =>
      match digit c with
      | Some d => digits l' (10 * acc + d)
      | None => None
      end
  end.

Definition is_leap (y : Z) : bool :=
  ((y mod 4 =? 0) && negb (y mod 100 =? 0)) || (y mod 400 =? 0).

Definition days_in_month (y m : Z) : Z :=
  if m =? 2 then (if is_leap y then 29 else 28)
  else if (m =? 4) || (m =? 6) || (m =? 9) || (m =? 11) then 30
  else 31.

(** Days from 1970-01-01 to a date of the proleptic Gregorian calendar. *)
Definition days_from_civil (y m d : Z) : Z :=
  let y' := if m <=? 2 then y - 1 else y in
  let era := y' / 400 in
  let yoe := y' - era * 400 in
  let doy := (153 * (if 2 <? m then m - 3 else m + 9) + 2) / 5 + d - 1 in
  let doe := yoe * 365 + yoe / 4 - yoe / 100 + doy in
  era * 146097 + doe - 719468.

Definition fraction_ns (l : list ascii) : option Z :=
  match l with
  | [] => None
  | _ =>
      if Nat.leb (List.length l) 9
      then match digits l 0 with
           | Some f => Some (f * 10 ^ (9 - Z.of_nat (List.length l)))
           | None => None
           end
      else None
  end.

Definition zulu_fraction (rest : list ascii) : option Z :=
  match rest with
  | ["Z"%char] => Some 0
  | "."%char :: tl =>
      match rev tl with
      | "Z"%char :: rfrac => fraction_ns (rev rfrac)
      | _ => None
      end
  | _ => None
  end.

Definition parse_iso (s : string) : option Z :=
  match list_ascii_of_string s with
  | y1 :: y2 :: y3 :: y4 :: "-"%char :: m1 :: m2 :: "-"%char :: d1 :: d2 :: "T"%char
      :: h1 :: h2 :: ":"%char :: n1 :: n2 :: ":"%char :: s1 :: s2 :: rest =>
      match digits [y1; y2; y3; y4] 0, digits [m1; m2] 0, digits [d1; d2] 0,
            digits [h1; h2] 0, digits [n1; n2] 0, digits [s1; s2] 0, zulu_fraction rest with
      | Some y, Some m, Some d, Some h, Some n, Some sec, Some f =>
          if (1 <=? m) && (m <=? 12) && (1 <=? d) && (d <=? days_in_month y m)
             && (h <=? 23) && (n <=? 59) && (sec <=? 59)
          then Some (days_from_civil y m d * ns_per_day
                     + ((h * 60 + n) * 60 + sec) * ns_per_second + f)
          else None
      | _, _, _, _, _, _, _ => None
      end
  | _ => None
  end.

Definition parse_cell (v : json) : option Z :=
  match v with
  | JStr s => parse_iso s
  | _ => None
  end.

Definition is_bool (v : json) : bool :=
  match v with
  | JBool _ => true
  | _ => false
  end.

Definition to_datetime_ref (col : list json) : result (list (option Z)) :=
  match col with
  | _ :: _ => if forallb is_bool col then Raise TypeError else Ok (map parse_cell col)
  | [] => Ok []
  end.

(** A column is a number dtype when it holds nothing but numbers and missing
    values, and a number or a gap left by a record without the key. *)
Definition numeric_dtype_ref (col : list (option json)) : bool :=
  forallb (fun c => match c with
                    | None | Some JNull | Some (JNum _) => true
                    | _ => false
                    end) col
  && existsb (fun c => match c with
                       | None | Some (JNum _) => true
                       | _ => false
                       end) col.

(** Insertion sort by timestamp: stable. *)
Fixpoint insert_row (r : Row) (l : list Row) : list Row :=
  match l with
  | [] => [r]
  | x :: l' => if time_leb (time r) (time x) then r :: l else x :: insert_row r l'
  end.

Definition stable_sort (l : list Row) : list Row := fold_right insert_row [] l.

(** Keys: numbers before text, each in its order. *)
Definition key_leb (a b : json) : bool :=
  match json_number a, json_number b with
  | Some p, Some q => Qle_bool p q
  | Some _, None => true
  | None, Some _ => false
  | None, None =>
      match a, b with
      | JStr s, JStr t => String.leb s t
      | _, _ => true
      end
  end.

Fixpoint insert_key (k : json) (l : list json) : list json :=
  match l with
  | [] => [k]
  | x :: l' => if key_leb k x then k :: l else x :: insert_key k l'
  end.

Definition sort_keys_ref (l : list json) : list json := fold_right insert_key [] l.

#[export] Instance pandas_ref : Pandas := {|
  pd_to_datetime := to_datetime_ref;
  numeric_dtype := numeric_dtype_ref;
  sort_values := stable_sort;
  sort_keys := sort_keys_ref
|}.

(** ** Example uploads, sessions and frames, under [pandas_ref] *)

Definition pump (pld ts : string) (flow : Q) : json :=
  JDict [("pld", JStr pld); ("asset_type", JStr "Pump"); ("timestamp", JStr ts);
         ("parameters", JDict [("flow", JNum flow)])].

(** Four entries: two that parse, one with text that is no date, one with no
    timestamp at all. *)
Definition upload_example : list json :=
  [pump "A1" "2024-01-01T00:00:00Z" (5 # 1);
   pump "A2" "yesterday" (6 # 1);
   pump "A1" "2024-01-02T00:00:00Z" (9 # 1);
   JDict [("pld", JStr "A3"); ("asset_type", JStr "Pump")]].

Definition upload_example_df : DataFrame :=
  Eval vm_compute in load_and_process_data (Some (Content (JList upload_example))).

(** An entry whose own timestamp is no date and whose [parameters] carry one
    is kept, at the instant given in [parameters]; the other way round the
    entry is dropped. *)
Definition shadowed : dict :=
  [("pld", JStr "A1"); ("asset_type", JStr "Pump"); ("timestamp", JStr "n/a");
   ("parameters", JDict [("timestamp", JStr "2024-01-01T00:00:00Z"); ("flow", JNum (5 # 1))])].

Definition shadowing : dict :=
  [("pld", JStr "A1"); ("asset_type", JStr "Pump"); ("timestamp", JStr "2024-01-01T00:00:00Z");
   ("parameters", JDict [("timestamp", JStr "n/a"); ("flow", JNum (5 # 1))])].

Definition line_config : dict :=
  [("asset_type", JStr "Pump"); ("type", JStr "Line Chart"); ("parameter", JStr "flow");
   ("display_mode", JStr "Individual")].

(** A session with a dataset of two rows and one chart. *)
Definition busy_state : SessionState :=
  {| data := upload_example_df; charts := [line_config]; show_modal := false |}.


(** A gauge from 100 down to 0. *)
Definition inverted_gauge : Widgets :=
  {| asset_type_choice := 0; chart_type_choice := 3; parameter_choice := 0;
     display_mode_choice := 0; aggregation_choice := 0; parameters_choice := [];
     min_val_input := 100; max_val_input := 0; add_to_dashboard := true |}.

(** Pumps report [flow]; the valve reports [pos] and a [level] in words, one
    pump a [level] in figures. *)
Definition mixed_upload : list json :=
  [pump "A1" "2024-01-01T00:00:00Z" (5 # 1);
   JDict [("pld", JStr "V1"); ("asset_type", JStr "Valve");
          ("timestamp", JStr "2024-01-01T00:00:00Z");
          ("parameters", JDict [("pos", JNum (3 # 1)); ("level", JStr "high")])];
   JDict [("pld", JStr "A2"); ("asset_type", JStr "Pump");
          ("timestamp", JStr "2024-01-01T06:00:00Z");
          ("parameters", JDict [("flow", JNum (6 # 1)); ("level", JNum (2 # 1))])]].

Definition mixed_df : DataFrame :=
  Eval vm_compute in load_and_process_data (Some (Content (JList mixed_upload))).

(** Two pump readings on 2024-01-01, one on 2024-01-03, none on the day in
    between. *)
Definition gap_upload : list json :=
  [pump "A1" "2024-01-01T08:00:00Z" (10 # 1);
   pump "A2" "2024-01-01T09:00:00Z" (20 # 1);
   pump "A1" "2024-01-03T08:00:00Z" (30 # 1)].

Definition gap_df : DataFrame :=
  Eval vm_compute in load_and_process_data (Some (Content (JList gap_upload))).

(** Two readings of one pump at the same instant. *)
Definition tie_upload : list json :=
  [pump "A1" "2024-01-01T08:00:00Z" (1 # 1);
   pump "A1" "2024-01-01T08:00:00Z" (2 # 1)].

Definition tie_df : DataFrame :=
  Eval vm_compute in load_and_process_data (Some (Content (JList tie_upload))).



(** Pump A1 reports a flow of 5, then only a pressure; pump A2 a flow of 7. *)
Definition sparse_upload : list json :=
  [pump "A1" "2024-01-01T08:00:00Z" (5 # 1);
   JDict [("pld", JStr "A1"); ("asset_type", JStr "Pump");
          ("timestamp", JStr "2024-01-02T08:00:00Z");
          ("parameters", JDict [("pressure", JNum (1 # 1))])];
   pump "A2" "2024-01-01T08:00:00Z" (7 # 1)].

Definition sparse_df : DataFrame :=
  Eval vm_compute in load_and_process_data (Some (Content (JList sparse_upload))).


(** ** utils/charting.py: the table and the gauge *)

(** What [st.dataframe(df[display_cols])] is given: the labels and, row by
    row, the cells under them. *)
Record Table := { header : list string; body : list (list cellv) }.

(** One step of the comprehension [[col for col in config['parameters'] if
    col in df.columns]]: the label when it is a column, nothing otherwise; a
    label that cannot be hashed makes [in] raise. *)
Definition kept_column (df : DataFrame) (col : json) : result (list string) :=
  if hashable col then
    Ok match col with
       | JStr s => if has_column df s then [s] else []
       | _ => []
       end
  else Raise TypeError.

Definition render_table (df : DataFrame) (config : dict) : result Table :=
  _ <- getitem config "asset_type" ;;
  parameters <- getitem config "parameters" ;;
  cols <- iterate parameters ;;
  kept <- mapM (kept_column df) cols ;;
  let display_cols := ["timestamp"; "pld"] ++ List.concat kept in
  if forallb (has_column df) display_cols
  then Ok {| header := display_cols;
             body := map (fun r => map (fun c => row_value c r) display_cols) (rows df) |}
  else Raise KeyError.

(** What [render_gauge] shows: the warning for a frame without assets,
    nothing when the selected [pld] is false, the note that there is no
    data, or the dial with its value and bounds. *)
Inductive gauge :=
| NoAssets
| NotSelected
| NoData
| Dial (value : cellv) (min_val max_val : json).

Definition column_is_number (df : DataFrame) (c : string) : bool :=
  existsb (fun cd => String.eqb c (fst cd) && is_number (snd cd)) (dtypes df).

(** [bool(v)] for an element of [unique().tolist()]: a missing value is
    [NaN], which is true, in a number column and [None], which is false, in
    any other. *)
Definition truthy (number_column : bool) (v : json) : bool :=
  match v with
  | JNull => number_column
  | JBool b => b
  | JNum q => negb (Qeq_bool q (0 # 1))
  | JStr s => negb (String.eqb s "")
  | JList l => match l with [] => false | _ => true end
  | JDict d => match d with [] => false | _ => true end
  end.

(** [config.get(k, default)]. *)
Definition dict_get_or (k : string) (default : json) (d : dict) : json :=
  match dict_get k d with
  | Some v => v
  | None => default
  end.

Section Gauge.
Context {P : Pandas}.

(** [choice] is the asset picked in the select box of the gauge. *)
Definition render_gauge (df : DataFrame) (config : dict) (choice : nat) : result gauge :=
  param <- getitem config "parameter" ;;
  _ <- getitem config "asset_type" ;;
  pld_list <- unique df "pld" ;;
  match pld_list with
  | [] => Ok NoAssets
  | _ =>
      let selected_pld := selectbox pld_list choice in
      if truthy (column_is_number df "pld") selected_pld then
        let asset_df := sort_values (group (rows df) "pld" selected_pld) in
        match asset_df with
        | [] => Ok NoData
        | first :: _ =>
            if in_columns df param then
              latest_value <- row_getitem df param (last asset_df first) ;;
              Ok (Dial latest_value
                       (dict_get_or "min_val" (JNum (0 # 1)) config)
                       (dict_get_or "max_val" (JNum (100 # 1)) config))
            else Ok NoData
        end
      else Ok NotSelected
  end.

End Gauge.

(** ** pages/Dashboard.py and streamlit_app.py: the default dates and the events *)

(** [df['timestamp'].dt.date]. *)
Definition dates (df : DataFrame) : list Z := map day_of (times (rows df)).

(** [.min()] and [.max()] of the dates, of a frame with rows. *)
Definition min_date (df : DataFrame) : option Z :=
  match dates df with
  | [] => None
  | d :: ds => Some (fold_right Z.min d ds)
  end.

Definition max_date (df : DataFrame) : option Z :=
  match dates df with
  | [] => None
  | d :: ds => Some (fold_right Z.max d ds)
  end.

(** [st.session_state.charts.pop(i)]; [None] is [IndexError]. *)
Definition pop (i : nat) (l : list dict) : option (list dict) :=
  if Nat.ltb i (List.length l) then Some (firstn i l ++ skipn (S i) l) else None.

(** The script runs that write the session: a file in the uploader of the
    home page, a press on "Add Chart", a run of the open dialog with its
    widgets as they stand, and a run of the chart loop that reaches
    [charts.pop(i)].  The page draws the "Remove" button of a chart only
    after the chart itself, so the loop reaches fewer removals than [Remove]
    allows; what holds after every sequence of these events holds after
    every sequence the pages can perform. *)
Inductive event :=
| Upload (f : UploadedFile)
| AddChart
| Dialog (w : Widgets)
| Remove (i : nat).

Section Events.
Context {P : Pandas}.

(** One run of the script.  The dashboard page stops at once when the
    dataset is empty; a run that raises leaves the session as it was. *)
Definition step (st : SessionState) (ev : event) : SessionState :=
  match ev with
  | Upload f => upload (Some f) st
  | AddChart =>
      if empty (data st) then st
      else {| data := data st; charts := charts st; show_modal := true |}
  | Dialog w =>
      if empty (data st) then st
      else if show_modal st then
        match configure_chart_dialog (data st) w st with
        | Ok st' => st'
        | Raise _ => st
        end
      else st
  | Remove i =>
      if empty (data st) then st
      else
        match pop i (charts st) with
        | Some l => {| data := data st; charts := l; show_modal := show_modal st |}
        | None => st
        end
  end.

Definition run (evs : list event) : SessionState := fold_left step evs initial_state.

End Events.

(** The dictionary the dialog builds for a table. *)
Definition tabular_config (asset_type : json) (picked : list string) : dict :=
  [("asset_type", asset_type); ("type", JStr "Tabular Data");
   ("parameters", JList (map JStr picked))].

(** [df[display_cols]] for a list of labels: the table of those columns. *)
Definition project (df : DataFrame) (display_cols : list string) : Table :=
  {| header := display_cols;
     body := map (fun r => map (fun c => row_value c r) display_cols) (rows df) |}.

(** The labels picked in a multi-select over the columns. *)
Definition picked_columns (cols : list string) (choice : list nat) : list string :=
  flat_map (fun i => match nth_error cols i with Some c => [c] | None => [] end) choice.

(** A gauge of [flow] as the dialog builds it. *)
Definition gauge_config : dict :=
  [("asset_type", JStr "Pump"); ("type", JStr "Gauge"); ("parameter", JStr "flow");
   ("min_val", JNum (100 # 1)); ("max_val", JNum (0 # 1))].

(** The dialog filled in for a table, for a big number and for an individual
    line chart. *)
Definition table_widgets : Widgets :=
  {| asset_type_choice := 0; chart_type_choice := 1; parameter_choice := 0;
     display_mode_choice := 0; aggregation_choice := 0; parameters_choice := [3%nat; 0%nat];
     min_val_input := 0; max_val_input := 100; add_to_dashboard := true |}.

Definition big_number_widgets : Widgets :=
  {| asset_type_choice := 0; chart_type_choice := 2; parameter_choice := 0;
     display_mode_choice := 0; aggregation_choice := 0; parameters_choice := [];
     min_val_input := 0; max_val_input := 100; add_to_dashboard := true |}.

Definition line_widgets : Widgets :=
  {| asset_type_choice := 0; chart_type_choice := 0; parameter_choice := 0;
     display_mode_choice := 0; aggregation_choice := 0; parameters_choice := [];
     min_val_input := 0; max_val_input := 100; add_to_dashboard := true |}.

(** No numeric column: a reading that carries no parameter. *)
Definition bare_upload : list json :=
  [JDict [("pld", JStr "A1"); ("asset_type", JStr "Pump");
          ("timestamp", JStr "2024-01-01T08:00:00Z")]].

Definition bare_df : DataFrame :=
  Eval vm_compute in load_and_process_data (Some (Content (JList bare_upload))).

(** * Properties *)

#[local] Arguments String.eqb : simpl never.
#[local] Arguments Z.mul : simpl never.
#[local] Arguments Z.add : simpl never.
#[local] Arguments Z.sub : simpl never.
#[local] Arguments Z.div : simpl never.

(** ** The reference instance meets the contract *)

Lemma time_leb_le (a b : option Z) : time_leb a b = true <-> time_le a b.
Proof.
  destruct a, b; simpl; try tauto; try (split; [discriminate | contradiction]).
  apply Z.leb_le.
Qed.

Lemma time_le_total (a b : option Z) : time_le a b \/ time_le b a.
Proof. destruct a, b; simpl; auto; lia. Qed.

Lemma time_le_trans (a b c : option Z) : time_le a b -> time_le b c -> time_le a c.
Proof. destruct a, b, c; simpl; auto; try contradiction; lia. Qed.

Lemma insert_row_perm (r : Row) (l : list Row) : Permutation (insert_row r l) (r :: l).
Proof.
  induction l as [|x l IH]; simpl.
  - reflexivity.
  - destruct (time_leb (time r) (time x)).
    + reflexivity.
    + rewrite IH. apply perm_swap.
Qed.

Lemma stable_sort_perm (l : list Row) : Permutation (stable_sort l) l.
Proof.
  induction l as [|x l IH]; simpl.
  - constructor.
  - rewrite insert_row_perm. now constructor.
Qed.

Lemma insert_row_sorted (r : Row) (l : list Row) :
  StronglySorted (fun a b => time_le (time a) (time b)) l ->
  StronglySorted (fun a b => time_le (time a) (time b)) (insert_row r l).
Proof.
  induction 1 as [|x l Hs IH Hx]; simpl.
  - repeat constructor.
  - destruct (time_leb (time r) (time x)) eqn:E.
    + apply time_leb_le in E. constructor.
      * now constructor.
      * constructor; [exact E|].
        eapply Forall_impl; [|exact Hx].
        intros y Hy. eapply time_le_trans; eauto.
    + constructor; [exact IH|].
      assert (Hrx : time_le (time x) (time r)).
      { destruct (time_le_total (time r) (time x)) as [H|H]; [|exact H].
        apply time_leb_le in H. congruence. }
      eapply Permutation_Forall; [symmetry; apply insert_row_perm|].
      now constructor.
Qed.

Lemma stable_sort_sorted (l : list Row) :
  StronglySorted (fun a b => time_le (time a) (time b)) (stable_sort l).
Proof.
  induction l as [|x l IH]; simpl.
  - constructor.
  - now apply insert_row_sorted.
Qed.





Lemma insert_key_perm (k : json) (l : list json) : Permutation (insert_key k l) (k :: l).
Proof.
  induction l as [|x l IH]; simpl.
  - reflexivity.
  - destruct (key_leb k x).
    + reflexivity.
    + rewrite IH. apply perm_swap.
Qed.

Lemma sort_keys_ref_perm (l : list json) : Permutation (sort_keys_ref l) l.
Proof.
  induction l as [|x l IH]; simpl.
  - constructor.
  - rewrite insert_key_perm. now constructor.
Qed.

Lemma to_datetime_ref_map (col : list json) (ts : list (option Z)) :
  to_datetime_ref col = Ok ts -> ts = map parse_cell col.
Proof.
  unfold to_datetime_ref. destruct col as [|c col].
  - now intros [= <-].
  - destruct (forallb is_bool (c :: col)); [discriminate|]. now intros [= <-].
Qed.

Lemma to_datetime_ref_length (col : list json) (ts : list (option Z)) :
  to_datetime_ref col = Ok ts -> List.length ts = List.length col.
Proof.
  intros H. apply to_datetime_ref_map in H. subst. apply length_map.
Qed.

Lemma to_datetime_ref_null (col : list json) (ts : list (option Z)) (i : nat) :
  to_datetime_ref col = Ok ts -> nth_error col i = Some JNull -> nth_error ts i = Some None.
Proof.
  intros H Hi. apply to_datetime_ref_map in H. subst.
  rewrite nth_error_map, Hi. reflexivity.
Qed.

Lemma numeric_dtype_ref_text (col : list (option json)) (s : string) :
  In (Some (JStr s)) col -> numeric_dtype_ref col = false.
Proof.
  intros H. unfold numeric_dtype_ref. apply andb_false_iff. left.
  apply not_true_is_false. intros Hall.
  rewrite forallb_forall in Hall. specialize (Hall _ H). discriminate.
Qed.

#[export] Instance pandas_ref_laws : PandasLaws pandas_ref.
Proof.
  constructor; simpl.
  - exact to_datetime_ref_length.
  - exact to_datetime_ref_null.
  - exact numeric_dtype_ref_text.
  - exact stable_sort_perm.
  - exact stable_sort_sorted.
  - exact sort_keys_ref_perm.
Qed.

(** ** Dictionaries and the monad *)

Lemma dict_get_app (k : string) (d d' : dict) :
  dict_get k (d ++ d') =
  match dict_get k d' with
  | Some v => Some v
  | None => dict_get k d
  end.
Proof.
  induction d as [|[k' v] d IH]; simpl.
  - now destruct (dict_get k d').
  - rewrite IH. now destruct (dict_get k d').
Qed.

Lemma first_seen_In (l : list string) (k : string) : In k (first_seen l) <-> In k l.
Proof.
  unfold first_seen. rewrite <- in_rev, nodup_In, <- in_rev. reflexivity.
Qed.

Lemma existsb_eqb_In (k : string) (l : list string) :
  existsb (String.eqb k) l = true <-> In k l.
Proof.
  rewrite existsb_exists. split.
  - intros [x [Hx E]]. apply String.eqb_eq in E. now subst.
  - intros H. exists k. split; [exact H | apply String.eqb_refl].
Qed.

Lemma mapM_length {A B} (f : A -> result B) (l : list A) (bs : list B) :
  mapM f l = Ok bs -> List.length bs = List.length l.
Proof.
  revert bs. induction l as [|a l IH]; simpl; intros bs.
  - now intros [= <-].
  - destruct (f a); [|discriminate]. simpl.
    destruct (mapM f l); [|discriminate]. simpl.
    intros [= <-]. simpl. f_equal. now apply IH.
Qed.

Lemma mapM_Forall2 {A B} (f : A -> result B) (l : list A) (bs : list B) :
  mapM f l = Ok bs -> Forall2 (fun a b => f a = Ok b) l bs.
Proof.
  revert bs. induction l as [|x l IH]; simpl; intros bs.
  - intros [= <-]. constructor.
  - destruct (f x) as [b|] eqn:Ex; [|discriminate]. simpl.
    destruct (mapM f l) as [bs'|]; [|discriminate]. simpl.
    intros [= <-]. constructor; auto.
Qed.

(** ** The normaliser *)

Lemma flat_record_dict (kvs : dict) :
  flat_record (JDict kvs) =
  Ok (let flat := [("pld", dict_get_default "pld" kvs);
                   ("asset_type", dict_get_default "asset_type" kvs);
                   ("timestamp", dict_get_default "timestamp" kvs)] in
      match parameters (JDict kvs) with
      | Some params => dict_update flat params
      | None => flat
      end).
Proof.
  unfold flat_record. simpl. now destruct (dict_get "parameters" kvs) as [[]|].
Qed.

Lemma frame_columns_In (records : list dict) (c : string) :
  In c (frame_columns records) <-> exists r, In r records /\ In c (map fst r).
Proof.
  unfold frame_columns, dict_keys. rewrite first_seen_In, in_map_iff. split.
  - intros [[k v] [<- H]]. apply in_concat in H. destruct H as [r [Hr Hin]].
    exists r. split; [exact Hr|]. now apply (in_map fst) in Hin.
  - intros [r [Hr Hc]]. apply in_map_iff in Hc. destruct Hc as [kv [<- Hkv]].
    exists kv. split; [reflexivity|]. apply in_concat. eauto.
Qed.

Section NormalizerFacts.
Context {P : Pandas} {L : PandasLaws P}.


(** How a list of entries is ingested, step by step. *)
Lemma ingest_Loaded (entries : list json) (df : DataFrame) :
  ingest (Content (JList entries)) = Loaded df ->
  exists records ts,
    mapM flat_record entries = Ok records
    /\ pd_to_datetime (map (dict_get_default "timestamp") records) = Ok ts
    /\ dtypes df = map (fun c => (c, column_dtype records c)) (frame_columns records)
    /\ rows df = dropna (map make_row (combine records ts))
    /\ In "timestamp" (frame_columns records).
Proof.
  unfold ingest. simpl.
  destruct (mapM flat_record entries) as [records|] eqn:Er; [|discriminate]. simpl.
  destruct (existsb (String.eqb "timestamp") (frame_columns records)) eqn:Ec;
    simpl; [|discriminate].
  destruct (pd_to_datetime _) as [ts|] eqn:Et; simpl; [|discriminate].
  intros [= <-]. exists records, ts. simpl.
  repeat split; auto. now apply existsb_eqb_In.
Qed.









End NormalizerFacts.



Example upload_example_count :
  List.length (rows upload_example_df) = 2%nat
  /\ map time (rows upload_example_df)
     = [Some 1704067200000000000; Some 1704153600000000000].
Proof. split; reflexivity. Qed.


Example shadowed_timestamp_decides :
  map time (rows (load_and_process_data (Some (Content (JList [JDict shadowed])))))
  = [Some 1704067200000000000]
  /\ rows (load_and_process_data (Some (Content (JList [JDict shadowing])))) = [].
Proof. split; reflexivity. Qed.

(** ** The session: uploads *)

Section SessionFacts.
Context {P : Pandas} {L : PandasLaws P}.

Lemma Loaded_has_timestamp (f : UploadedFile) (df : DataFrame) :
  ingest f = Loaded df -> In "timestamp" (columns df).
Proof.
  unfold ingest. destruct f as [|data]; simpl; [discriminate|].
  destruct (iterate data) as [entries|]; simpl; [|discriminate].
  destruct (mapM flat_record entries) as [records|]; simpl; [|discriminate].
  destruct (existsb (String.eqb "timestamp") (frame_columns records)) eqn:Ec;
    simpl; [|discriminate].
  destruct (pd_to_datetime _) as [ts|]; simpl; [|discriminate].
  intros [= <-]. unfold columns. simpl. rewrite map_map. simpl. rewrite map_id.
  now apply existsb_eqb_In.
Qed.



(** The other side of the guard: an empty frame leaves the chart list as it
    was. *)
Lemma upload_empty_keeps_charts (f : UploadedFile) (st : SessionState) :
  empty (load_and_process_data (Some f)) = true ->
  charts (upload (Some f) st) = charts st.
Proof. intros H. unfold upload. now rewrite H. Qed.

Lemma upload_assigns_data (f : UploadedFile) (st : SessionState) :
  data (upload (Some f) st) = load_and_process_data (Some f).
Proof. unfold upload. now destruct (negb _). Qed.

(** C4, as the code has it. After a failed attempt the dataset of the session
    is the empty frame that [load_and_process_data] returns on an error; the
    chart list is left as it was. *)
Theorem failed_upload_empties_dataset (f : UploadedFile) (st : SessionState) :
  ingest f = SchemaError \/ (exists e, ingest f = IngestError e) ->
  data (upload (Some f) st) = pd_DataFrame
  /\ charts (upload (Some f) st) = charts st.
Proof.
  intros H.
  assert (Hl : load_and_process_data (Some f) = pd_DataFrame).
  { unfold load_and_process_data. destruct H as [-> | [e ->]]; reflexivity. }
  split.
  - now rewrite upload_assigns_data.
  - apply upload_empty_keeps_charts. now rewrite Hl.
Qed.

End SessionFacts.



Lemma failed_upload_empties_dataset_witness :
  data (upload (Some Malformed) busy_state) = pd_DataFrame
  /\ charts (upload (Some Malformed) busy_state) = charts busy_state.
Proof.
  apply (failed_upload_empties_dataset Malformed busy_state).
  right. exists JSONDecodeError. reflexivity.
Defined.

(** C4 fails: a malformed file, and a file with no entries, each replace a
    dataset of two rows by the empty frame. *)
Lemma failed_upload_replaces_dataset :
  List.length (rows (data busy_state)) = 2%nat
  /\ ingest Malformed = IngestError JSONDecodeError
  /\ data (upload (Some Malformed) busy_state) = pd_DataFrame
  /\ ingest (Content (JList [])) = SchemaError
  /\ data (upload (Some (Content (JList []))) busy_state) = pd_DataFrame.
Proof. repeat split; vm_compute; reflexivity. Qed.

(** ** The date range of a chart *)

Lemma to_datetime_last_second (to_date : Z) :
  to_datetime to_date = Timestamp to_date + Timedelta 0 86399.
Proof. unfold to_datetime, Timestamp, Timedelta, ns_per_day. lia. Qed.

(** The upper bound is the start of the last second of the day. *)
Lemma in_date_range_iff (from_date to_date t : Z) :
  in_date_range from_date to_date (Some t) = true
  <-> Timestamp from_date <= t <= Timestamp to_date + Timedelta 0 86399.
Proof.
  unfold in_date_range. rewrite andb_true_iff, !Z.leb_le, to_datetime_last_second.
  unfold from_datetime. tauto.
Qed.

(** C1, on the code. A row at 23:59:59.999999 of the chosen [to_date] is not
    in the filtered rows, whatever its asset type and the [from_date]; nor is
    a row at 00:00:00 of the next day. *)
Theorem last_second_of_to_date_excluded (asset_type : json) (from_date to_date : Z)
    (flds : dict) :
  chart_row asset_type from_date to_date
    {| time := Some (end_of_day to_date); fields := flds |} = false
  /\ chart_row asset_type from_date to_date
       {| time := Some (Timestamp (to_date + 1)); fields := flds |} = false.
Proof.
  unfold chart_row. simpl. split; apply andb_false_iff; right;
    apply not_true_is_false; intros H; apply in_date_range_iff in H;
    unfold end_of_day, Timestamp, Timedelta, ns_per_day, ns_per_second in H; lia.
Qed.

(** The same on an upload: of two records on 2024-01-01, one at 23:59:59 and
    one at 23:59:59.999999, the chart for that day shows the first only. *)
Example last_second_example :
  let df := load_and_process_data
              (Some (Content (JList [pump "A1" "2024-01-01T23:59:59Z" (5 # 1);
                                     pump "A1" "2024-01-01T23:59:59.999999Z" (9 # 1)]))) in
  map time (rows df) = [Some 1704153599000000000; Some (end_of_day 19723)]
  /\ match chart_df df line_config 19723 19723 with
     | Ok shown => map time (rows shown) = [Some 1704153599000000000]
     | Raise _ => False
     end.
Proof. vm_compute. split; reflexivity. Qed.

(** ** The configuration dialog *)

Lemma dict_get_set_same (k : string) (v : json) (d : dict) :
  dict_get k (dict_set k v d) = Some v.
Proof.
  unfold dict_set. rewrite dict_get_app. simpl. now rewrite String.eqb_refl.
Qed.

Lemma dict_get_set_other (k k' : string) (v : json) (d : dict) :
  String.eqb k k' = false -> dict_get k (dict_set k' v d) = dict_get k d.
Proof.
  intros H. unfold dict_set. rewrite dict_get_app. simpl. now rewrite H.
Qed.

(** C8, as the code has it. The dialog checks nothing: with "Gauge" picked
    and "Add to Dashboard" pressed, the configuration is appended with
    [min_val] and [max_val] as they were entered, in that order, whatever
    their order. *)
Theorem gauge_bounds_appended_as_entered (df : DataFrame) (w : Widgets)
    (st : SessionState) (asset_types : list json) :
  unique df "asset_type" = Ok asset_types ->
  selectbox chart_types (chart_type_choice w) = JStr "Gauge" ->
  add_to_dashboard w = true ->
  exists cfg,
    configure_chart_dialog df w st
    = Ok {| data := data st; charts := charts st ++ [cfg]; show_modal := false |}
    /\ dict_get "type" cfg = Some (JStr "Gauge")
    /\ dict_get "min_val" cfg = Some (JNum (inject_Z (min_val_input w)))
    /\ dict_get "max_val" cfg = Some (JNum (inject_Z (max_val_input w))).
Proof.
  intros Hu Hg Ha. unfold configure_chart_dialog, dialog_config.
  rewrite Hu. simpl. rewrite Hg. simpl. rewrite Ha.
  eexists. split; [reflexivity|].
  unfold number_input.
  rewrite !dict_get_set_same, !(dict_get_set_other "min_val" "max_val") by reflexivity.
  rewrite dict_get_set_same.
  rewrite !(dict_get_set_other "type") by reflexivity.
  rewrite dict_get_set_same. auto.
Qed.

Lemma gauge_bounds_appended_as_entered_witness :
  exists cfg,
    configure_chart_dialog upload_example_df inverted_gauge initial_state
    = Ok {| data := pd_DataFrame; charts := [cfg]; show_modal := false |}
    /\ dict_get "min_val" cfg = Some (JNum (100 # 1))
    /\ dict_get "max_val" cfg = Some (JNum (0 # 1)).
Proof.
  destruct (gauge_bounds_appended_as_entered upload_example_df inverted_gauge
              initial_state [JStr "Pump"])
    as (cfg & H1 & _ & H2 & H3); try reflexivity.
  exists cfg. auto.
Defined.

(** C8 fails: the gauge with [min_val = 100 > max_val = 0] is in the chart
    list after the dialog, and no error was raised. *)
Lemma inverted_gauge_is_appended :
  configure_chart_dialog upload_example_df inverted_gauge initial_state
  = Ok {| data := pd_DataFrame;
          charts := [[("asset_type", JStr "Pump"); ("type", JStr "Gauge");
                      ("parameter", JStr "flow");
                      ("min_val", JNum (100 # 1)); ("max_val", JNum (0 # 1))]];
          show_modal := false |}.
Proof. vm_compute. reflexivity. Qed.

Lemma selectbox_two (a b : json) (i : nat) :
  selectbox [a; b] i = a \/ selectbox [a; b] i = b.
Proof. destruct i as [|[|[|i]]]; simpl; auto. Qed.

(** The dictionaries the dialog can build: those of [individual_config],
    [grouped_config] and [big_number_config], with "sum" or "mean" as the
    aggregation, a table and a gauge. *)
Lemma dialog_config_shapes (df : DataFrame) (w : Widgets) (cfg : dict) :
  dialog_config df w = Ok cfg ->
  exists a p,
    cfg = individual_config a p
    \/ (exists g, (g = JStr "sum" \/ g = JStr "mean") /\ cfg = grouped_config a p g)
    \/ (exists ps, cfg = [("asset_type", a); ("type", JStr "Tabular Data");
                          ("parameters", JList ps)])
    \/ (exists g, (g = JStr "sum" \/ g = JStr "mean") /\ cfg = big_number_config a p g)
    \/ (exists lo hi, cfg = [("asset_type", a); ("type", JStr "Gauge"); ("parameter", p);
                             ("min_val", JNum (inject_Z lo));
                             ("max_val", JNum (inject_Z hi))]).
Proof.
  unfold dialog_config. destruct (unique df "asset_type") as [asset_types|]; [|discriminate].
  simpl.
  set (a := selectbox asset_types (asset_type_choice w)).
  set (p := selectbox (map JStr (numeric_cols (modal_df df a))) (parameter_choice w)).
  pose proof (selectbox_two (JStr "sum") (JStr "mean") (aggregation_choice w)) as Hg.
  intros H. exists a, p.
  clearbody a p.
  destruct (chart_type_choice w) as [|[|[|[|[|n]]]]];
    destruct (display_mode_choice w) as [|[|[|m]]];
    destruct Hg as [Eg | Eg]; rewrite ?Eg in H;
    cbv [selectbox nth hd chart_types py_eqb json_number String.eqb Ascii.eqb
         Bool.eqb dict_set app bind number_input] in H;
    injection H as <-;
    first [ left; reflexivity
          | right; left; eexists; split; [|reflexivity]; auto; fail
          | right; right; left; eexists; reflexivity
          | right; right; right; left; eexists; split; [|reflexivity]; auto; fail
          | right; right; right; right;
            exists (min_val_input w), (max_val_input w); reflexivity ].
Qed.

(** The columns offered do not depend on the asset type picked. *)
Lemma modal_df_dtypes (df : DataFrame) (t : json) : dtypes (modal_df df t) = dtypes df.
Proof. reflexivity. Qed.

Section DialogFacts.
Context {P : Pandas} {L : PandasLaws P}.

Lemma column_dtype_Number (records : list dict) (c : string) :
  is_number (column_dtype records c) = true
  <-> c <> "timestamp" /\ numeric_dtype (column_values c records) = true.
Proof.
  unfold column_dtype. destruct (String.eqb_spec c "timestamp") as [->|Hc]; simpl.
  - split; [discriminate | intros [H _]; congruence].
  - destruct (numeric_dtype (column_values c records)); simpl; split; auto.
    intros [_ H]. discriminate.
Qed.

Lemma numeric_cols_In (records : list dict) (df : DataFrame) (asset_type : json)
    (c : string) :
  dtypes df = map (fun c => (c, column_dtype records c)) (frame_columns records) ->
  In c (numeric_cols (modal_df df asset_type))
  <-> In c (frame_columns records) /\ c <> "timestamp"
      /\ numeric_dtype (column_values c records) = true.
Proof.
  intros Hd. unfold numeric_cols. rewrite modal_df_dtypes, Hd.
  rewrite in_map_iff. split.
  - intros [[c' d] [Hc Hin]]. simpl in Hc. subst c'.
    apply filter_In in Hin. destruct Hin as [Hin Hn]. simpl in Hn.
    apply in_map_iff in Hin. destruct Hin as [c' [[= -> <-] Hin]].
    split; [exact Hin|]. now apply column_dtype_Number.
  - intros [Hin Hn]. exists (c, column_dtype records c). split; [reflexivity|].
    apply filter_In. split.
    + apply in_map_iff. eauto.
    + simpl. now apply column_dtype_Number.
Qed.

(** C9, as the code has it. For a frame loaded from a list of entries and any
    asset type: the columns offered are all the columns of the frame, that is
    the keys of the flat records of every entry, of whatever asset type and
    whether its row was kept or not; the numeric ones are those, [timestamp]
    apart, whose cells over all the records infer a number dtype, so that
    text in the column on a record of any asset type excludes it. *)
Theorem column_domains_are_dataset_wide (entries : list json) (df : DataFrame)
    (asset_type : json) :
  ingest (Content (JList entries)) = Loaded df ->
  exists records,
    mapM flat_record entries = Ok records
    /\ all_cols (modal_df df asset_type) = frame_columns records
    /\ (forall c, In c (all_cols (modal_df df asset_type))
                  <-> exists r, In r records /\ In c (map fst r))
    /\ (forall c, In c (numeric_cols (modal_df df asset_type))
                  <-> In c (frame_columns records) /\ c <> "timestamp"
                      /\ numeric_dtype (column_values c records) = true)
    /\ (forall c r s, In r records -> dict_get c r = Some (JStr s) ->
                      ~ In c (numeric_cols (modal_df df asset_type))).
Proof.
  intros H.
  destruct (ingest_Loaded _ _ H) as (records & ts & Hr & _ & Hd & _ & _).
  exists records. split; [exact Hr|].
  assert (Hall : all_cols (modal_df df asset_type) = frame_columns records).
  { unfold all_cols, columns. rewrite modal_df_dtypes, Hd, map_map. simpl.
    apply map_id. }
  split; [exact Hall|]. split; [|split].
  - intros c. rewrite Hall. apply frame_columns_In.
  - intros c. now apply numeric_cols_In.
  - intros c r s Hin Hget Hc.
    apply (numeric_cols_In records) in Hc; [|exact Hd].
    destruct Hc as (_ & _ & Hn).
    rewrite (numeric_dtype_text (column_values c records) s) in Hn; [discriminate|].
    unfold column_values. rewrite <- Hget. now apply in_map.
Qed.

End DialogFacts.

Lemma column_domains_are_dataset_wide_witness :
  exists records,
    mapM flat_record mixed_upload = Ok records
    /\ all_cols (modal_df mixed_df (JStr "Pump")) = frame_columns records
    /\ (forall c, In c (numeric_cols (modal_df mixed_df (JStr "Pump")))
                  <-> In c (frame_columns records) /\ c <> "timestamp"
                      /\ numeric_dtype (column_values c records) = true).
Proof.
  destruct (column_domains_are_dataset_wide mixed_upload mixed_df (JStr "Pump"))
    as (records & H1 & H2 & _ & H3 & _); [vm_compute; reflexivity|].
  exists records. auto.
Defined.

(** C9 fails: the dialog reads the columns off [modal_df], the frame it has
    just filtered by the asset type, and the filter takes rows away, no
    column.  For "Pump" it offers [pos], which no pump record has, both among
    all the columns and among the numeric ones; and it does not offer [level]
    as numeric, which is a number on the one pump record that has it. *)
Lemma pump_is_offered_valve_columns :
  all_cols (modal_df mixed_df (JStr "Pump"))
  = ["pld"; "asset_type"; "timestamp"; "flow"; "pos"; "level"]
  /\ numeric_cols (modal_df mixed_df (JStr "Pump")) = ["flow"; "pos"]
  /\ present_for mixed_df (JStr "Pump") "pos" = false
  /\ present_for mixed_df (JStr "Pump") "level" = true
  /\ map (fun r => cell r "level") (rows (modal_df mixed_df (JStr "Pump")))
     = [JNull; JNum (2 # 1)].
Proof. repeat split; vm_compute; reflexivity. Qed.

(** ** Charts: reading and reducing cells *)

Lemma mapM_map_Ok {A B} (f : A -> result B) (g : A -> B) (l : list A) :
  (forall a, In a l -> f a = Ok (g a)) -> mapM f l = Ok (map g l).
Proof.
  induction l as [|a l IH]; simpl; intros H; [reflexivity|].
  rewrite (H a) by auto. simpl. rewrite IH by auto. reflexivity.
Qed.

Lemma mapM_spec {A B} (f : A -> result B) (R : A -> B -> Prop) (l : list A) :
  (forall a, In a l -> exists b, f a = Ok b /\ R a b) ->
  exists bs, mapM f l = Ok bs /\ Forall2 R l bs.
Proof.
  induction l as [|a l IH]; simpl; intros H.
  - eauto.
  - destruct (H a) as [b [Hb HR]]; auto.
    destruct IH as [bs [Hbs HF]]; auto.
    rewrite Hb, Hbs. simpl. eauto.
Qed.

Lemma row_getitem_column (df : DataFrame) (s : string) (r : Row) :
  has_column df s = true -> row_getitem df (JStr s) r = Ok (row_value s r).
Proof. intros H. unfold row_getitem. now rewrite H. Qed.

Lemma column_cells (df : DataFrame) (s : string) (l : list Row) :
  has_column df s = true ->
  mapM (row_getitem df (JStr s)) l = Ok (map (row_value s) l).
Proof. intros H. apply mapM_map_Ok. intros r _. now apply row_getitem_column. Qed.

Lemma numbers_summable (vals : list cellv) :
  forallb summable vals = true -> exists qs, numbers vals = Ok qs.
Proof.
  induction vals as [|v vals IH]; simpl; [eauto|].
  intros H. apply andb_true_iff in H. destruct H as [Hv Hs].
  destruct (IH Hs) as [qs Hqs]. unfold summable in Hv.
  destruct (missing v); [eauto|]. simpl in Hv.
  destruct v as [j|t]; [|discriminate].
  destruct (json_number j); [|discriminate]. rewrite Hqs. simpl. eauto.
Qed.

Lemma agg_summable (agg_func : json) (vals : list cellv) :
  agg_func = JStr "sum" \/ agg_func = JStr "mean" ->
  forallb summable vals = true ->
  exists x, agg agg_func vals = Ok x.
Proof.
  intros Ha Hs. destruct (numbers_summable _ Hs) as [qs Hqs].
  unfold agg, series_sum, series_mean. rewrite Hqs.
  destruct Ha as [-> | ->]; simpl; [eauto|]. destruct qs; eauto.
Qed.

Lemma agg_no_rows (agg_func : json) (x : float) :
  agg_func = JStr "sum" \/ agg_func = JStr "mean" ->
  agg agg_func [] = Ok x -> float_cell x = empty_bin_value agg_func.
Proof. intros [-> | ->]; cbv; intros [= <-]; reflexivity. Qed.

(** ** Grouped line charts: the bins *)

Lemma ns_per_day_pos : 0 < ns_per_day.
Proof. reflexivity. Qed.

Lemma day_of_mono (a b : Z) : a <= b -> day_of a <= day_of b.
Proof. intros H. apply Z.div_le_mono; [apply ns_per_day_pos | exact H]. Qed.

Lemma fold_min_spec (t : Z) (ts : list Z) :
  In (fold_right Z.min t ts) (t :: ts)
  /\ Forall (fun x => fold_right Z.min t ts <= x) (t :: ts).
Proof.
  induction ts as [|a ts [Hin Hall]]; simpl.
  - split; [auto | repeat constructor; lia].
  - inversion Hall as [|? ? Ht Hts]; subst. split.
    + destruct (Z.min_spec a (fold_right Z.min t ts)) as [[_ ->] | [_ ->]]; simpl in *; tauto.
    + constructor; [lia|]. constructor; [lia|].
      eapply Forall_impl; [|exact Hts]. simpl. intros; lia.
Qed.

Lemma fold_max_spec (t : Z) (ts : list Z) :
  In (fold_right Z.max t ts) (t :: ts)
  /\ Forall (fun x => x <= fold_right Z.max t ts) (t :: ts).
Proof.
  induction ts as [|a ts [Hin Hall]]; simpl.
  - split; [auto | repeat constructor; lia].
  - inversion Hall as [|? ? Ht Hts]; subst. split.
    + destruct (Z.max_spec a (fold_right Z.max t ts)) as [[_ ->] | [_ ->]]; simpl in *; tauto.
    + constructor; [lia|]. constructor; [lia|].
      eapply Forall_impl; [|exact Hts]. simpl. intros; lia.
Qed.

Lemma range_In (lo : Z) (n : nat) (d : Z) :
  In d (map (fun i => lo + Z.of_nat i) (seq 0 n)) <-> lo <= d < lo + Z.of_nat n.
Proof.
  rewrite in_map_iff. split.
  - intros [i [<- Hi]]. apply in_seq in Hi. lia.
  - intros H. exists (Z.to_nat (d - lo)). split; [lia|]. apply in_seq. lia.
Qed.

(** The bins are the days from the day of the earliest row to the day of the
    latest one, with or without rows of their own. *)
Lemma day_bins_In (l : list Row) (d : Z) :
  In d (day_bins l)
  <-> exists t1 t2, In t1 (times l) /\ In t2 (times l) /\ day_of t1 <= d <= day_of t2.
Proof.
  unfold day_bins. destruct (times l) as [|t ts] eqn:E.
  - split; [contradiction|]. intros (t1 & _ & H & _). contradiction.
  - cbv zeta. rewrite range_In.
    destruct (fold_min_spec t ts) as [Hmin Hle].
    destruct (fold_max_spec t ts) as [Hmax Hge].
    rewrite Forall_forall in Hle, Hge.
    set (lo := fold_right Z.min t ts) in *. set (hi := fold_right Z.max t ts) in *.
    split.
    + intros H. exists lo, hi. repeat split; auto; lia.
    + intros (t1 & t2 & H1 & H2 & Hd).
      pose proof (day_of_mono _ _ (Hle _ H1)).
      pose proof (day_of_mono _ _ (Hge _ H2)). lia.
Qed.

Lemma has_column_grouped (asset_type param agg_func : json) :
  getitem (grouped_config asset_type param agg_func) "parameter" = Ok param
  /\ getitem (grouped_config asset_type param agg_func) "asset_type" = Ok asset_type
  /\ getitem (grouped_config asset_type param agg_func) "display_mode" = Ok (JStr "Grouped")
  /\ getitem (grouped_config asset_type param agg_func) "aggregation" = Ok agg_func.
Proof. repeat split. Qed.

Section GroupedFacts.
Context {P : Pandas} {L : PandasLaws P}.

Lemma grouped_point_spec (df : DataFrame) (s : string) (agg_func : json) (d : Z) :
  agg_func = JStr "sum" \/ agg_func = JStr "mean" ->
  has_column df s = true ->
  Forall (fun r => summable (row_value s r) = true) (rows df) ->
  exists pt, grouped_point df (JStr s) agg_func d = Ok pt
             /\ (fst pt = Some (Timestamp d)
                 /\ (filter (in_bin d) (rows df) = [] -> snd pt = empty_bin_value agg_func)).
Proof.
  intros Ha Hc Hs. unfold grouped_point. rewrite (column_cells _ _ _ Hc). simpl.
  destruct (agg_summable agg_func (map (row_value s) (filter (in_bin d) (rows df))) Ha)
    as [x Hx].
  { apply forallb_forall. intros v Hv. apply in_map_iff in Hv.
    destruct Hv as [r [<- Hr]]. apply filter_In in Hr.
    rewrite Forall_forall in Hs. now apply Hs. }
  rewrite Hx. simpl. eexists. split; [reflexivity|]. simpl. split; [reflexivity|].
  intros He. rewrite He in Hx. simpl in Hx. now apply agg_no_rows.
Qed.

(** C5, as the code has it. A grouped line chart over a numeric column: one
    series, with one point for every calendar day from the day of the first
    row to the day of the last one; a day in between with no row is a point
    too, of value 0 under [sum] and a missing value under [mean]. *)
Theorem grouped_series_has_every_day (df : DataFrame) (asset_type agg_func : json)
    (param : string) :
  agg_func = JStr "sum" \/ agg_func = JStr "mean" ->
  has_column df "timestamp" = true ->
  has_column df param = true ->
  Forall (fun r => summable (row_value param r) = true) (rows df) ->
  exists pts,
    render_line_chart df (grouped_config asset_type (JStr param) agg_func)
    = Ok [{| name := Aggregate (JStr param) agg_func; points := pts |}]
    /\ map fst pts = map (fun d => Some (Timestamp d)) (day_bins (rows df))
    /\ (forall d, In d (day_bins (rows df))
                  <-> exists t1 t2, In t1 (times (rows df)) /\ In t2 (times (rows df))
                                    /\ day_of t1 <= d <= day_of t2)
    /\ (forall d, In d (day_bins (rows df)) ->
                  filter (in_bin d) (rows df) = [] ->
                  In (Some (Timestamp d), empty_bin_value agg_func) pts).
Proof.
  intros Ha Ht Hc Hs.
  destruct (mapM_spec (grouped_point df (JStr param) agg_func)
              (fun d pt => fst pt = Some (Timestamp d)
                           /\ (filter (in_bin d) (rows df) = [] ->
                               snd pt = empty_bin_value agg_func))
              (day_bins (rows df))) as [pts [Hpts HF]].
  { intros d _. now apply grouped_point_spec. }
  exists pts. split; [|split; [|split]].
  - unfold render_line_chart.
    destruct (has_column_grouped asset_type (JStr param) agg_func)
      as (-> & -> & -> & ->).
    simpl. unfold grouped_series. rewrite Ht. simpl. rewrite Hc. simpl.
    rewrite Hpts. reflexivity.
  - clear Hpts. induction HF as [|d pt bins pts' [Hd _] _ IH]; simpl; [reflexivity|].
    now rewrite Hd, IH.
  - intros d. apply day_bins_In.
  - intros d Hd He. clear Hpts.
    induction HF as [|d' pt bins pts' [Hf Hv] _ IH]; [contradiction|].
    destruct Hd as [-> | Hd]; [|right; now apply IH].
    left. destruct pt as [a b]. simpl in *. now rewrite Hf, (Hv He).
Qed.

End GroupedFacts.

Lemma grouped_series_has_every_day_witness :
  exists pts,
    render_line_chart gap_df (grouped_config (JStr "Pump") (JStr "flow") (JStr "sum"))
    = Ok [{| name := Aggregate (JStr "flow") (JStr "sum"); points := pts |}]
    /\ map fst pts = map (fun d => Some (Timestamp d)) (day_bins (rows gap_df))
    /\ In (Some (Timestamp 19724), empty_bin_value (JStr "sum")) pts.
Proof.
  destruct (grouped_series_has_every_day gap_df (JStr "Pump") (JStr "sum") "flow")
    as (pts & H1 & H2 & _ & H3).
  - left. reflexivity.
  - reflexivity.
  - reflexivity.
  - vm_compute. repeat constructor.
  - exists pts. repeat split; auto. apply H3.
    + vm_compute. auto.
    + reflexivity.
Defined.

(** The example of the specification: one day with 10, 20 and 30. *)
Example grouped_single_day :
  let df := load_and_process_data
              (Some (Content (JList [pump "A1" "2024-01-01T01:00:00Z" (10 # 1);
                                     pump "A2" "2024-01-01T02:00:00Z" (20 # 1);
                                     pump "A3" "2024-01-01T03:00:00Z" (30 # 1)]))) in
  render_line_chart df (grouped_config (JStr "Pump") (JStr "flow") (JStr "sum"))
  = Ok [{| name := Aggregate (JStr "flow") (JStr "sum");
           points := [(Some (Timestamp 19723), Val (JNum (60 # 1)))] |}]
  /\ render_line_chart df (grouped_config (JStr "Pump") (JStr "flow") (JStr "mean"))
     = Ok [{| name := Aggregate (JStr "flow") (JStr "mean");
              points := [(Some (Timestamp 19723), Val (JNum (20 # 1)))] |}].
Proof. vm_compute. split; reflexivity. Qed.

(** C5 fails: 2024-01-02 has no row and is in the series, as 0 under [sum]
    and as a missing value under [mean]. *)
Lemma day_without_rows_is_emitted :
  filter (in_bin 19724) (rows gap_df) = []
  /\ render_line_chart gap_df (grouped_config (JStr "Pump") (JStr "flow") (JStr "sum"))
     = Ok [{| name := Aggregate (JStr "flow") (JStr "sum");
              points := [(Some (Timestamp 19723), Val (JNum (30 # 1)));
                         (Some (Timestamp 19724), Val (JNum (0 # 1)));
                         (Some (Timestamp 19725), Val (JNum (30 # 1)))] |}]
  /\ render_line_chart gap_df (grouped_config (JStr "Pump") (JStr "flow") (JStr "mean"))
     = Ok [{| name := Aggregate (JStr "flow") (JStr "mean");
              points := [(Some (Timestamp 19723), Val (JNum (15 # 1)));
                         (Some (Timestamp 19724), Val JNull);
                         (Some (Timestamp 19725), Val (JNum (30 # 1)))] |}].
Proof. repeat split; vm_compute; reflexivity. Qed.

(** ** Keys of [groupby] *)

Lemma py_eqb_spec (a b : json) :
  py_eqb a b = true
  <-> (exists s, a = JStr s /\ b = JStr s)
      \/ (exists p q, json_number a = Some p /\ json_number b = Some q /\ (p == q)%Q).
Proof.
  unfold py_eqb. split.
  - intros H.
    destruct a as [|[]|x|x|x|x]; destruct b as [|[]|y|y|y|y]; simpl in H;
      try discriminate;
      try (left; apply String.eqb_eq in H; subst; eauto; fail);
      right; apply Qeq_bool_iff in H; simpl; eauto.
  - intros [(s & -> & ->) | (p & q & Ha & Hb & Hq)].
    + apply String.eqb_refl.
    + rewrite Ha, Hb. apply Qeq_bool_iff in Hq.
      destruct a; try discriminate; destruct b; try discriminate; exact Hq.
Qed.

Lemma py_eqb_sym (a b : json) : py_eqb a b = true -> py_eqb b a = true.
Proof.
  rewrite !py_eqb_spec. intros [(s & -> & ->) | (p & q & Ha & Hb & Hq)]; [eauto|].
  right. exists q, p. repeat split; auto. now symmetry.
Qed.

Lemma py_eqb_trans (a b c : json) :
  py_eqb a b = true -> py_eqb b c = true -> py_eqb a c = true.
Proof.
  rewrite !py_eqb_spec.
  intros [(s & -> & ->) | (p & q & Ha & Hb & Hq)]
         [(s' & Hs & ->) | (p' & q' & Hb' & Hc & Hq')].
  - left. injection Hs as <-. eauto.
  - discriminate.
  - subst b. discriminate.
  - right. rewrite Hb in Hb'. injection Hb' as <-.
    exists p, q'. repeat split; auto. now rewrite Hq.
Qed.

Lemma py_eqb_refl (a : json) :
  hashable a = true -> notnull a = true -> py_eqb a a = true.
Proof.
  intros Hh Hn. apply py_eqb_spec.
  destruct a as [|[]| | | |]; try discriminate; [right|right|right|left]; eauto;
    eexists _, _; repeat split; reflexivity.
Qed.

Lemma py_eqb_notnull (a b : json) : py_eqb a b = true -> notnull a = true /\ notnull b = true.
Proof.
  rewrite py_eqb_spec. intros [(s & -> & ->) | (p & q & Ha & Hb & _)]; [auto|].
  destruct a, b; try discriminate; auto.
Qed.

Lemma same_key_refl (a : json) : hashable a = true -> same_key a a = true.
Proof.
  intros H. unfold same_key. destruct (isnull a) eqn:E; [reflexivity|].
  simpl. apply py_eqb_refl; [exact H|]. unfold notnull. now rewrite E.
Qed.

Lemma same_key_trans (a b c : json) :
  same_key a b = true -> same_key b c = true -> same_key a c = true.
Proof.
  unfold same_key. rewrite !orb_true_iff, !andb_true_iff.
  intros [[Ha Hb] | Hab] [[Hb' Hc] | Hbc].
  - auto.
  - apply py_eqb_notnull in Hbc. unfold notnull in Hbc. rewrite Hb in Hbc.
    destruct Hbc; discriminate.
  - apply py_eqb_notnull in Hab. unfold notnull in Hab. rewrite Hb' in Hab.
    destruct Hab; discriminate.
  - right. eapply py_eqb_trans; eauto.
Qed.

Lemma dedup_In (l : list json) (x : json) : In x (dedup l) -> In x l.
Proof.
  induction l as [|a l IH]; simpl; [auto|].
  intros [-> | H]; [auto|]. apply filter_In in H. right. now apply IH.
Qed.

Lemma dedup_cover (l : list json) (x : json) :
  Forall (fun v => hashable v = true) l -> In x l ->
  exists y, In y (dedup l) /\ same_key y x = true.
Proof.
  induction 1 as [|a l Ha Hl IH]; simpl; [contradiction|].
  intros [-> | Hx].
  - exists x. split; [auto | now apply same_key_refl].
  - destruct (IH Hx) as [y [Hy Hyx]].
    destruct (same_key a y) eqn:E.
    + exists a. split; [auto|]. eapply same_key_trans; eauto.
    + exists y. split; [|exact Hyx]. right. apply filter_In. now rewrite E.
Qed.

(** ** Individual line charts *)

Section IndividualFacts.
Context {P : Pandas} {L : PandasLaws P}.



(** A key of the grouping is the [pld] of a row, equal to itself. *)
Lemma key_has_row (df : DataFrame) (k : json) :
  forallb hashable (pld_column df) = true ->
  In k (sort_keys (dedup (filter notnull (pld_column df)))) ->
  exists r, In r (group (rows df) "pld" k).
Proof.
  intros Hh Hk.
  apply (Permutation_in _ (sort_keys_perm _)), dedup_In, filter_In in Hk.
  destruct Hk as [Hin Hn]. unfold pld_column in Hin.
  apply in_map_iff in Hin. destruct Hin as [r [<- Hr]].
  exists r. apply filter_In. split; [exact Hr|].
  apply py_eqb_refl; [|exact Hn].
  rewrite forallb_forall in Hh. apply Hh. unfold pld_column.
  now apply (in_map (fun r => cell r "pld")).
Qed.


End IndividualFacts.


(** The end-to-end example of the specification. *)
Example individual_series_example :
  render_line_chart upload_example_df (individual_config (JStr "Pump") (JStr "flow"))
  = Ok [{| name := Pld (JStr "A1");
           points := [(Some 1704067200000000000, Val (JNum (5 # 1)));
                      (Some 1704153600000000000, Val (JNum (9 # 1)))] |}].
Proof. vm_compute. reflexivity. Qed.

(** Two readings of one pump at the same instant, under the reference
    sort: they are drawn in the order of the upload. *)
Example tied_rows_example :
  render_line_chart tie_df (individual_config (JStr "Pump") (JStr "flow"))
  = Ok [{| name := Pld (JStr "A1");
           points := [(Some 1704096000000000000, Val (JNum (1 # 1)));
                      (Some 1704096000000000000, Val (JNum (2 # 1)))] |}].
Proof. vm_compute. reflexivity. Qed.


(** ** Big numbers *)

Lemma time_le_refl (a : option Z) : time_le a a.
Proof. destruct a; simpl; auto; lia. Qed.

Lemma StronglySorted_filter {A} (R : A -> A -> Prop) (p : A -> bool) (l : list A) :
  StronglySorted R l -> StronglySorted R (filter p l).
Proof.
  induction 1 as [|a l Hs IH Ha]; simpl; [constructor|].
  destruct (p a); [|exact IH]. constructor; [exact IH|].
  apply Forall_forall. intros x Hx. apply filter_In in Hx.
  rewrite Forall_forall in Ha. now apply Ha.
Qed.




Section BigNumberFacts.
Context {P : Pandas} {L : PandasLaws P}.






End BigNumberFacts.


(** The examples of the specification: final readings of 5 and 7 sum to 12;
    no rows give "N/A". *)
Example big_number_examples :
  render_big_number gap_df (big_number_config (JStr "Pump") (JStr "flow") (JStr "sum"))
  = Ok (Formatted (Fin (50 # 1)))
  /\ render_big_number sparse_df (big_number_config (JStr "Pump") (JStr "flow") (JStr "sum"))
     = Ok (Formatted (Fin (12 # 1)))
  /\ render_big_number {| dtypes := dtypes gap_df; rows := [] |}
       (big_number_config (JStr "Pump") (JStr "flow") (JStr "sum")) = Ok NA.
Proof. repeat split; vm_compute; reflexivity. Qed.


(** ** More on the normaliser *)

Lemma flat_record_timestamp_key (entry : json) (flat : dict) :
  flat_record entry = Ok flat ->
  In "pld" (map fst flat) /\ In "asset_type" (map fst flat) /\ In "timestamp" (map fst flat).
Proof.
  destruct entry; try discriminate.
  rewrite flat_record_dict. intros [= <-].
  destruct (dict_get "parameters" kvs) as [[]|]; simpl; tauto.
Qed.

Lemma flat_record_object (entry : json) (flat : dict) :
  flat_record entry = Ok flat -> exists kvs, entry = JDict kvs.
Proof. destruct entry; try discriminate. eauto. Qed.

Lemma mapM_raises {A B} (f : A -> result B) (l : list A) (a : A) (e : exn) :
  In a l -> (forall x, In x l -> f x = Raise e \/ exists b, f x = Ok b) ->
  f a = Raise e -> mapM f l = Raise e.
Proof.
  induction l as [|x l IH]; simpl; [contradiction|].
  intros Hin Hall Ha. destruct (Hall x (or_introl eq_refl)) as [Hx | [b Hx]]; rewrite Hx.
  - reflexivity.
  - simpl. destruct Hin as [-> | Hin]; [congruence|].
    rewrite IH; auto.
Qed.

Lemma flat_record_cases (entry : json) :
  flat_record entry = Raise AttributeError \/ exists flat, flat_record entry = Ok flat.
Proof.
  destruct entry; try (left; reflexivity). right. rewrite flat_record_dict. eauto.
Qed.

Section MoreNormalizerFacts.
Context {P : Pandas} {L : PandasLaws P}.

(** How any file that loads was ingested. *)
Lemma ingest_Loaded_file (f : UploadedFile) (df : DataFrame) :
  ingest f = Loaded df ->
  exists data entries records ts,
    f = Content data
    /\ iterate data = Ok entries
    /\ mapM flat_record entries = Ok records
    /\ pd_to_datetime (map (dict_get_default "timestamp") records) = Ok ts
    /\ dtypes df = map (fun c => (c, column_dtype records c)) (frame_columns records)
    /\ rows df = dropna (map make_row (combine records ts)).
Proof.
  unfold ingest. destruct f as [|data]; simpl; [discriminate|].
  destruct (iterate data) as [entries|] eqn:Ei; simpl; [|discriminate].
  destruct (mapM flat_record entries) as [records|] eqn:Er; simpl; [|discriminate].
  destruct (existsb (String.eqb "timestamp") (frame_columns records)) eqn:Ec;
    simpl; [|discriminate].
  destruct (pd_to_datetime _) as [ts|] eqn:Et; simpl; [|discriminate].
  intros [= <-]. exists data, entries, records, ts. simpl. repeat split; auto.
Qed.

(** X1. The "must contain a 'timestamp' field" branch is taken exactly when
    the file holds no entry at all (an empty list, object or text): a flat
    record always has the key [timestamp], so entries that lack a timestamp
    never lead there. *)
Theorem schema_error_iff_no_entries (f : UploadedFile) :
  ingest f = SchemaError <-> exists data, f = Content data /\ iterate data = Ok [].
Proof.
  unfold ingest. split.
  - destruct f as [|data]; simpl; [discriminate|].
    destruct (iterate data) as [entries|] eqn:Ei; simpl; [|discriminate].
    destruct entries as [|e entries]; [eauto|].
    destruct (mapM flat_record (e :: entries)) as [records|] eqn:Er; simpl; [|discriminate].
    assert (Hc : existsb (String.eqb "timestamp") (frame_columns records) = true).
    { apply existsb_eqb_In, frame_columns_In.
      apply mapM_Forall2 in Er. inversion Er as [|? r ? rs He _]; subst.
      exists r. split; [now left|]. now apply flat_record_timestamp_key in He. }
    rewrite Hc. simpl. destruct (pd_to_datetime _); simpl; discriminate.
  - intros [data [-> Hi]]. simpl. rewrite Hi. reflexivity.
Qed.

Lemma loaded_columns (f : UploadedFile) (df : DataFrame) :
  ingest f = Loaded df ->
  NoDup (columns df)
  /\ In "pld" (columns df) /\ In "asset_type" (columns df) /\ In "timestamp" (columns df)
  /\ Forall (fun r => forall k, In k (map fst (fields r)) -> In k (columns df)) (rows df).
Proof.
  intros H.
  destruct (ingest_Loaded_file _ _ H)
    as (data & entries & records & ts & _ & _ & Hr & _ & Hd & Hrows).
  assert (Hcols : columns df = frame_columns records).
  { unfold columns. rewrite Hd, map_map. simpl. apply map_id. }
  assert (Hne : exists r, In r records).
  { pose proof (Loaded_has_timestamp _ _ H) as Ht. rewrite Hcols in Ht.
    apply frame_columns_In in Ht. destruct Ht as [r [Hr' _]]. eauto. }
  destruct Hne as [r0 Hr0].
  assert (Hkeys : forall r, In r records ->
            In "pld" (map fst r) /\ In "asset_type" (map fst r) /\ In "timestamp" (map fst r)).
  { intros r Hin. apply mapM_Forall2 in Hr. clear - Hr Hin.
    induction Hr as [|e r' es rs He _ IH]; [contradiction|].
    destruct Hin as [-> | Hin]; [now apply flat_record_timestamp_key in He | auto]. }
  rewrite Hcols. repeat split.
  - unfold frame_columns, dict_keys, first_seen. apply NoDup_rev, NoDup_nodup.
  - apply frame_columns_In. exists r0. split; [auto|]. apply Hkeys; auto.
  - apply frame_columns_In. exists r0. split; [auto|]. apply Hkeys; auto.
  - apply frame_columns_In. exists r0. split; [auto|]. apply Hkeys; auto.
  - apply Forall_forall. intros r Hin k Hk. rewrite Hrows in Hin.
    apply filter_In in Hin. destruct Hin as [Hin _].
    apply in_map_iff in Hin. destruct Hin as [[rec t] [<- Hin]]. simpl in Hk.
    apply in_combine_l in Hin. apply frame_columns_In. eauto.
Qed.

(** X3. A frame that was loaded has the columns [pld], [asset_type] and
    [timestamp], no column twice, and every key of the record behind a row is
    one of its columns. *)
Theorem loaded_frame_columns (f : UploadedFile) (df : DataFrame) :
  ingest f = Loaded df ->
  NoDup (columns df)
  /\ In "pld" (columns df) /\ In "asset_type" (columns df) /\ In "timestamp" (columns df)
  /\ Forall (fun r => forall k, In k (map fst (fields r)) -> In k (columns df)) (rows df).
Proof. apply loaded_columns. Qed.

(** X4. All or nothing: a file loads only when its top-level value is a list
    with at least one entry, every entry of which is an object; one entry
    that is not an object makes the whole upload fail. *)
Theorem loads_only_lists_of_objects (f : UploadedFile) (df : DataFrame) :
  ingest f = Loaded df ->
  exists entries,
    f = Content (JList entries)
    /\ entries <> []
    /\ Forall (fun e => exists kvs, e = JDict kvs) entries.
Proof.
  intros H.
  destruct (ingest_Loaded_file _ _ H)
    as (data & entries & records & ts & -> & Hi & Hr & _ & _ & _).
  assert (Hobj : Forall (fun e => exists kvs, e = JDict kvs) entries).
  { apply mapM_Forall2 in Hr. clear - Hr.
    induction Hr as [|e r es rs He _ IH]; constructor; auto.
    now apply flat_record_object in He. }
  assert (Hne : entries <> []).
  { intros ->. assert (E : ingest (Content data) = SchemaError).
    { apply schema_error_iff_no_entries. eauto. }
    congruence. }
  destruct data as [| | | s | l | kvs]; try discriminate.
  - exfalso. simpl in Hi. injection Hi as <-. unfold chars in Hobj, Hne.
    destruct (list_ascii_of_string s); [now apply Hne|].
    simpl in Hobj. inversion Hobj as [|? ? [kvs Hk] _]. discriminate.
  - simpl in Hi. injection Hi as <-. eauto.
  - exfalso. simpl in Hi. injection Hi as <-.
    destruct (dict_keys kvs); [now apply Hne|].
    simpl in Hobj. inversion Hobj as [|? ? [kvs' Hk] _]. discriminate.
Qed.

End MoreNormalizerFacts.

(** X2. Looking a key up in the flat record of an object entry: the value in
    [parameters] when [parameters] is an object that binds the key; otherwise
    the value of the entry (or a missing value) for the three reserved keys,
    and nothing for any other key.  So top-level fields other than the
    reserved three never reach the frame, and a [parameters] that is not an
    object is ignored. *)
Theorem flat_record_lookup (kvs : dict) (k : string) :
  exists flat,
    flat_record (JDict kvs) = Ok flat
    /\ dict_get k flat
       = match match parameters (JDict kvs) with
               | Some params => dict_get k params
               | None => None
               end with
         | Some v => Some v
         | None => if existsb (String.eqb k) reserved
                   then Some (dict_get_default k kvs) else None
         end.
Proof.
  eexists. split; [apply flat_record_dict|]. cbv zeta.
  assert (H3 : dict_get k [("pld", dict_get_default "pld" kvs);
                           ("asset_type", dict_get_default "asset_type" kvs);
                           ("timestamp", dict_get_default "timestamp" kvs)]
               = if existsb (String.eqb k) reserved
                 then Some (dict_get_default k kvs) else None).
  { unfold reserved. simpl.
    destruct (String.eqb_spec k "timestamp") as [->|]; [reflexivity|].
    destruct (String.eqb_spec k "asset_type") as [->|]; [reflexivity|].
    destruct (String.eqb_spec k "pld") as [->|]; reflexivity. }
  destruct (parameters (JDict kvs)) as [params|].
  - unfold dict_update. rewrite dict_get_app, H3. now destruct (dict_get k params).
  - exact H3.
Qed.

Lemma loaded_frame_columns_witness :
  NoDup (columns upload_example_df)
  /\ In "pld" (columns upload_example_df)
  /\ In "timestamp" (columns upload_example_df).
Proof.
  destruct (loaded_frame_columns (Content (JList upload_example)) upload_example_df)
    as (H1 & H2 & _ & H3 & _); [vm_compute; reflexivity|]. auto.
Defined.

Lemma loads_only_lists_of_objects_witness :
  exists entries,
    Content (JList upload_example) = Content (JList entries)
    /\ entries <> []
    /\ Forall (fun e => exists kvs, e = JDict kvs) entries.
Proof.
  apply (loads_only_lists_of_objects (Content (JList upload_example)) upload_example_df).
  vm_compute. reflexivity.
Defined.

(** ** More on the filter of a chart and the default dates *)

(** X5. The slice of a chart: a missing [asset_type] in the configuration
    raises [KeyError]; otherwise the slice has the columns of the dataset, and
    a row is in it exactly when it is a row of the dataset whose asset type
    equals the chart's and whose timestamp lies between 00:00:00 of
    [from_date] and 23:59:59 of [to_date], both included. *)
Theorem chart_slice_rows (df : DataFrame) (config : dict) (from_date to_date : Z) :
  (dict_get "asset_type" config = None ->
   chart_df df config from_date to_date = Raise KeyError)
  /\ (forall asset_type,
        dict_get "asset_type" config = Some asset_type ->
        exists shown,
          chart_df df config from_date to_date = Ok shown
          /\ dtypes shown = dtypes df
          /\ forall r, In r (rows shown)
                       <-> In r (rows df)
                           /\ py_eqb (cell r "asset_type") asset_type = true
                           /\ exists t, time r = Some t
                                        /\ Timestamp from_date <= t
                                           <= Timestamp to_date + Timedelta 0 86399).
Proof.
  unfold chart_df, getitem. split.
  - intros ->. reflexivity.
  - intros asset_type ->. simpl. eexists. split; [reflexivity|]. split; [reflexivity|].
    intros r. simpl. rewrite filter_In. unfold chart_row.
    rewrite andb_true_iff. split.
    + intros (Hin & Ha & Hr). repeat split; auto.
      destruct (time r) as [t|]; [|discriminate].
      exists t. split; [reflexivity|]. now apply in_date_range_iff.
    + intros (Hin & Ha & t & Ht & Hr). repeat split; auto.
      rewrite Ht. now apply in_date_range_iff.
Qed.

Lemma chart_slice_rows_witness :
  chart_df upload_example_df [] 19723 19723 = Raise KeyError
  /\ exists shown,
       chart_df upload_example_df line_config 19723 19723 = Ok shown
       /\ dtypes shown = dtypes upload_example_df.
Proof.
  destruct (chart_slice_rows upload_example_df [] 19723 19723) as [H _].
  destruct (chart_slice_rows upload_example_df line_config 19723 19723) as [_ H'].
  destruct (H' (JStr "Pump") eq_refl) as (shown & H1 & H2 & _).
  split; [apply H; reflexivity|]. exists shown. auto.
Defined.

(** X6. The two date inputs are not checked against each other: with a
    [to_date] before the [from_date] every chart gets an empty slice. *)
Theorem reversed_dates_show_nothing (df : DataFrame) (config : dict)
    (from_date to_date : Z) (shown : DataFrame) :
  to_date < from_date ->
  chart_df df config from_date to_date = Ok shown ->
  rows shown = [].
Proof.
  intros Hlt H. unfold chart_df in H.
  destruct (getitem config "asset_type") as [a|]; [|discriminate].
  simpl in H. injection H as <-. simpl.
  induction (rows df) as [|r l IH]; [reflexivity|]. simpl.
  replace (chart_row a from_date to_date r) with false; [exact IH|].
  symmetry. unfold chart_row. apply andb_false_iff. right.
  destruct (time r) as [t|]; [|reflexivity].
  apply not_true_is_false. intros Hr. apply in_date_range_iff in Hr.
  unfold Timestamp, Timedelta, ns_per_day, ns_per_second in Hr. lia.
Qed.

Lemma reversed_dates_show_nothing_witness :
  exists shown,
    chart_df upload_example_df line_config 19724 19723 = Ok shown /\ rows shown = [].
Proof.
  eexists. split; [reflexivity|].
  apply (reversed_dates_show_nothing upload_example_df line_config 19724 19723).
  - reflexivity.
  - reflexivity.
Defined.

Lemma times_In (l : list Row) (r : Row) (t : Z) :
  In r l -> time r = Some t -> In t (times l).
Proof.
  intros Hr Ht. unfold times. apply in_flat_map. exists r. split; [exact Hr|].
  rewrite Ht. now left.
Qed.

Lemma day_of_bounds (t : Z) : Timestamp (day_of t) <= t < Timestamp (day_of t + 1).
Proof.
  unfold Timestamp, day_of. pose proof ns_per_day_pos as Hp.
  pose proof (Z.mul_div_le t ns_per_day Hp).
  pose proof (Z.mul_succ_div_gt t ns_per_day Hp). lia.
Qed.

(** X7. With the dates the page proposes, the first and the last date of the
    dataset, no row is before the lower bound, and a row is filtered out only
    if it lies on the last date after 23:59:59.000; a dataset whose
    timestamps are whole seconds is shown in full. *)
Theorem default_dates_keep_whole_seconds (df : DataFrame) (lo hi : Z) (r : Row) (t : Z) :
  min_date df = Some lo ->
  max_date df = Some hi ->
  In r (rows df) ->
  time r = Some t ->
  from_datetime lo <= t
  /\ (t mod ns_per_second = 0 -> in_date_range lo hi (Some t) = true)
  /\ (in_date_range lo hi (Some t) = false ->
      day_of t = hi /\ Timestamp hi + Timedelta 0 86399 < t).
Proof.
  unfold min_date, max_date, dates. intros Hlo Hhi Hr Ht.
  assert (Hin : In (day_of t) (map day_of (times (rows df)))).
  { apply in_map. eapply times_In; eauto. }
  destruct (map day_of (times (rows df))) as [|d ds]; [contradiction|].
  injection Hlo as <-. injection Hhi as <-.
  destruct (fold_min_spec d ds) as [_ Hmin]. destruct (fold_max_spec d ds) as [_ Hmax].
  rewrite Forall_forall in Hmin, Hmax.
  specialize (Hmin _ Hin). specialize (Hmax _ Hin).
  set (lo := fold_right Z.min d ds) in *. set (hi := fold_right Z.max d ds) in *.
  pose proof (day_of_bounds t) as [Hb1 Hb2].
  assert (Hlow : Timestamp lo <= t).
  { unfold Timestamp in *. pose proof ns_per_day_pos. nia. }
  split; [exact Hlow|]. split.
  - intros Hmod. apply in_date_range_iff. split; [exact Hlow|].
    apply Z.mod_divide in Hmod; [|discriminate]. destruct Hmod as [k ->].
    unfold Timestamp, Timedelta, ns_per_day, ns_per_second in *. nia.
  - intros Hf.
    assert (Hgt : Timestamp hi + Timedelta 0 86399 < t).
    { destruct (Z_lt_le_dec (Timestamp hi + Timedelta 0 86399) t) as [H|H]; [exact H|].
      assert (in_date_range lo hi (Some t) = true) by (apply in_date_range_iff; lia).
      congruence. }
    split; [|exact Hgt].
    unfold Timestamp, Timedelta, ns_per_day, ns_per_second in *. nia.
Qed.

Lemma default_dates_keep_whole_seconds_witness :
  from_datetime 19723 <= 1704153600000000000
  /\ in_date_range 19723 19724 (Some 1704153600000000000) = true.
Proof.
  destruct (default_dates_keep_whole_seconds upload_example_df 19723 19724
              {| time := Some 1704153600000000000;
                 fields := [("pld", JStr "A1"); ("asset_type", JStr "Pump");
                            ("timestamp", JStr "2024-01-02T00:00:00Z");
                            ("flow", JNum (9 # 1))] |}
              1704153600000000000) as (H1 & H2 & _).
  - reflexivity.
  - reflexivity.
  - vm_compute. auto.
  - reflexivity.
  - split; [exact H1 | apply H2; reflexivity].
Defined.

(** ** Distinct values *)

Lemma same_key_sym (a b : json) : same_key a b = true -> same_key b a = true.
Proof.
  unfold same_key. rewrite !orb_true_iff, !andb_true_iff.
  intros [[Ha Hb] | H]; [auto | right; now apply py_eqb_sym].
Qed.

Lemma dedup_distinct (l : list json) :
  StronglySorted (fun a b => same_key a b = false) (dedup l).
Proof.
  induction l as [|x l IH]; simpl; constructor.
  - now apply StronglySorted_filter.
  - apply Forall_forall. intros y Hy. apply filter_In in Hy.
    destruct Hy as [_ Hy]. now apply negb_true_iff in Hy.
Qed.

Lemma distinct_keys_eq (l : list json) (v w : json) :
  StronglySorted (fun a b => same_key a b = false) l ->
  Forall (fun x => hashable x = true) l ->
  In v l -> In w l -> same_key v w = true -> v = w.
Proof.
  induction 1 as [|x l Hs IH Hx]; [contradiction|].
  intros Hh Hv Hw Hvw. inversion Hh as [|? ? Hhx Hhl]; subst.
  rewrite Forall_forall in Hx.
  destruct Hv as [-> | Hv], Hw as [-> | Hw]; auto.
  - rewrite (Hx _ Hw) in Hvw. discriminate.
  - apply same_key_sym in Hvw. rewrite (Hx _ Hv) in Hvw. discriminate.
Qed.



(** ** More on grouped line charts *)

Lemma range_increasing (lo : Z) (n : nat) :
  StronglySorted Z.lt (map (fun i => lo + Z.of_nat i) (seq 0 n)).
Proof.
  assert (H : forall k, StronglySorted Z.lt (map (fun i => lo + Z.of_nat i) (seq k n))).
  { induction n as [|n IH]; intros k; simpl; constructor.
    - apply IH.
    - apply Forall_forall. intros d Hd. apply in_map_iff in Hd.
      destruct Hd as [i [<- Hi]]. apply in_seq in Hi. lia. }
  apply H.
Qed.

Lemma day_bins_increasing (l : list Row) : StronglySorted Z.lt (day_bins l).
Proof.
  unfold day_bins. destruct (times l); [constructor|]. apply range_increasing.
Qed.

Lemma grouped_point_day (df : DataFrame) (param agg_func : json) (d : Z)
    (pt : option Z * cellv) :
  grouped_point df param agg_func d = Ok pt -> fst pt = Some (Timestamp d).
Proof.
  unfold grouped_point. destruct (mapM _ _); [|discriminate]. simpl.
  destruct (agg _ _); [|discriminate]. simpl. now intros [= <-].
Qed.

Section MoreGroupedFacts.
Context {P : Pandas}.

(** X9. Whenever a grouped line chart is rendered it is one series, named
    after the parameter and the aggregation; its points are in strictly
    ascending order of day, one per day; and every row with a timestamp falls
    in the bin of its own UTC day and in no other. *)
Theorem grouped_points_ascend (df : DataFrame) (asset_type param agg_func : json)
    (series : list Series) :
  render_line_chart df (grouped_config asset_type param agg_func) = Ok series ->
  exists pts,
    series = [{| name := Aggregate param agg_func; points := pts |}]
    /\ map fst pts = map (fun d => Some (Timestamp d)) (day_bins (rows df))
    /\ StronglySorted Z.lt (day_bins (rows df))
    /\ forall r t, In r (rows df) -> time r = Some t ->
                   In (day_of t) (day_bins (rows df))
                   /\ forall d, in_bin d r = true <-> d = day_of t.
Proof.
  unfold render_line_chart.
  destruct (has_column_grouped asset_type param agg_func) as (-> & -> & -> & ->).
  simpl. unfold grouped_series.
  destruct (negb (has_column df "timestamp")); [discriminate|].
  destruct (negb (in_columns df param)); [discriminate|].
  destruct (mapM (grouped_point df param agg_func) (day_bins (rows df))) as [pts|] eqn:E;
    [|discriminate].
  simpl. intros [= <-]. exists pts. split; [reflexivity|]. split; [|split].
  - apply mapM_Forall2 in E. induction E as [|d pt ds pts' Hd _ IH]; [reflexivity|].
    simpl. now rewrite (grouped_point_day _ _ _ _ _ Hd), IH.
  - apply day_bins_increasing.
  - intros r t Hr Ht. split.
    + apply day_bins_In. exists t, t. pose proof (times_In _ _ _ Hr Ht). repeat split; auto; lia.
    + intros d. unfold in_bin. rewrite Ht, Z.eqb_eq. split; congruence.
Qed.

End MoreGroupedFacts.

Lemma grouped_points_ascend_witness :
  exists pts,
    render_line_chart gap_df (grouped_config (JStr "Pump") (JStr "flow") (JStr "mean"))
    = Ok [{| name := Aggregate (JStr "flow") (JStr "mean"); points := pts |}]
    /\ map fst pts = map (fun d => Some (Timestamp d)) (day_bins (rows gap_df))
    /\ StronglySorted Z.lt (day_bins (rows gap_df)).
Proof.
  destruct (grouped_points_ascend gap_df (JStr "Pump") (JStr "flow") (JStr "mean")
              [{| name := Aggregate (JStr "flow") (JStr "mean");
                  points := [(Some (Timestamp 19723), Val (JNum (15 # 1)));
                             (Some (Timestamp 19724), Val JNull);
                             (Some (Timestamp 19725), Val (JNum (30 # 1)))] |}])
    as (pts & H1 & H2 & H3 & _); [vm_compute; reflexivity|].
  exists pts. rewrite <- H1. split; [vm_compute; reflexivity | auto].
Defined.

(** ** More on individual line charts *)

Lemma distinct_NoDup (l : list json) :
  StronglySorted (fun a b => same_key a b = false) l ->
  Forall (fun x => hashable x = true) l -> NoDup l.
Proof.
  induction 1 as [|x l Hs IH Hx]; intros Hh; constructor;
    inversion Hh as [|? ? Hhx Hhl]; subst; auto.
  intros Hin. rewrite Forall_forall in Hx. specialize (Hx x Hin).
  rewrite (same_key_refl x Hhx) in Hx. discriminate.
Qed.

Lemma flat_map_filter_cons_length {K A} (q : K -> A -> bool) (r : A) (l : list A)
    (ks : list K) :
  List.length (flat_map (fun k => filter (q k) (r :: l)) ks)
  = (List.length (filter (fun k => q k r) ks)
     + List.length (flat_map (fun k => filter (q k) l) ks))%nat.
Proof.
  induction ks as [|k ks IH]; [reflexivity|].
  cbn [flat_map]. rewrite !length_app, IH. cbn [filter].
  destruct (q k r); cbn [List.length]; lia.
Qed.

Lemma matching_keys_at_most_one (ks : list json) (v : json) :
  NoDup ks ->
  (forall a b, In a ks -> In b ks -> same_key a b = true -> a = b) ->
  (List.length (filter (fun k => py_eqb v k) ks) <= 1)%nat.
Proof.
  intros Hnd Hpair.
  pose proof (NoDup_filter (fun k => py_eqb v k) Hnd) as Hf.
  destruct (filter (fun k => py_eqb v k) ks) as [|a [|b l]] eqn:E; simpl; try lia.
  exfalso.
  assert (Ha : In a (filter (fun k => py_eqb v k) ks)) by (rewrite E; simpl; auto).
  assert (Hb : In b (filter (fun k => py_eqb v k) ks)) by (rewrite E; simpl; auto).
  apply filter_In in Ha, Hb. destruct Ha as [Ha Hva], Hb as [Hb Hvb].
  assert (Hab : a = b).
  { apply Hpair; auto. unfold same_key. apply orb_true_iff. right.
    eapply py_eqb_trans; [apply py_eqb_sym|]; eauto. }
  subst b. inversion Hf as [|? ? Hnin _]. apply Hnin. now left.
Qed.

Lemma points_count (ks : list json) (l : list Row) :
  NoDup ks ->
  (forall a b, In a ks -> In b ks -> same_key a b = true -> a = b) ->
  (forall r, In r l -> notnull (cell r "pld") = true ->
             exists k, In k ks /\ py_eqb (cell r "pld") k = true) ->
  List.length (flat_map (fun k => group l "pld" k) ks)
  = List.length (filter (fun r => notnull (cell r "pld")) l).
Proof.
  intros Hnd Hpair. induction l as [|r l IH]; intros Hcov.
  - unfold group. clear. induction ks as [|k ks IHk]; simpl; auto.
  - unfold group in *.
    rewrite (flat_map_filter_cons_length (fun k r => py_eqb (cell r "pld") k)).
    rewrite IH by (intros; apply Hcov; simpl; auto).
    pose proof (matching_keys_at_most_one ks (cell r "pld") Hnd Hpair) as Hle.
    simpl. destruct (notnull (cell r "pld")) eqn:En; simpl.
    + destruct (Hcov r (or_introl eq_refl) En) as [k [Hk Hm]].
      assert (Hin : In k (filter (fun k => py_eqb (cell r "pld") k) ks))
        by (apply filter_In; auto).
      destruct (filter (fun k => py_eqb (cell r "pld") k) ks); [contradiction|].
      simpl in *. lia.
    + destruct (filter (fun k => py_eqb (cell r "pld") k) ks) as [|k ks'] eqn:E;
        [reflexivity|].
      assert (Hin : In k (filter (fun k => py_eqb (cell r "pld") k) ks))
        by (rewrite E; now left).
      apply filter_In in Hin. destruct Hin as [_ Hm].
      apply py_eqb_notnull in Hm. destruct Hm. congruence.
Qed.

Section MoreIndividualFacts.
Context {P : Pandas} {L : PandasLaws P}.

Lemma individual_series_inv (df : DataFrame) (param k : json) (s : Series) :
  individual_series df param k = Ok s ->
  name s = Pld k
  /\ List.length (points s) = List.length (group (rows df) "pld" k).
Proof.
  unfold individual_series.
  destruct (mapM _ (sort_values (group (rows df) "pld" k))) as [pts|] eqn:E;
    [|discriminate].
  simpl. intros [= <-]. simpl. split; [reflexivity|].
  apply mapM_length in E. rewrite E.
  apply Permutation_length, sort_values_perm.
Qed.

(** X10. Whenever an individual line chart is rendered, no two series have
    the same name, and the series together have as many points as the frame
    has rows with a [pld]: each such row is drawn once, and a row without
    [pld] is not drawn. *)
Theorem individual_points_partition_rows (df : DataFrame) (asset_type param : json)
    (series : list Series) :
  render_line_chart df (individual_config asset_type param) = Ok series ->
  NoDup (map name series)
  /\ List.length (flat_map points series)
     = List.length (filter (fun r => notnull (cell r "pld")) (rows df)).
Proof.
  unfold render_line_chart. simpl.
  destruct (groupby_keys df "pld") as [keys|] eqn:Ek; [|discriminate]. simpl.
  intros Hs. apply mapM_Forall2 in Hs.
  unfold groupby_keys in Ek.
  destruct (negb (has_column df "pld")); [discriminate|].
  destruct (forallb hashable (map (fun r => cell r "pld") (rows df))) eqn:Hh;
    [|discriminate].
  injection Ek as Ek.
  set (col := map (fun r => cell r "pld") (rows df)) in *.
  assert (Hall : Forall (fun v => hashable v = true) (dedup (filter notnull col))).
  { apply Forall_forall. intros v Hv. apply dedup_In, filter_In in Hv.
    rewrite forallb_forall in Hh. now apply Hh. }
  assert (Hperm : Permutation keys (dedup (filter notnull col))).
  { rewrite <- Ek. apply sort_keys_perm. }
  assert (Hnd : NoDup keys).
  { apply (Permutation_NoDup (Permutation_sym Hperm)).
    apply distinct_NoDup; [apply dedup_distinct | exact Hall]. }
  assert (Hpair : forall a b, In a keys -> In b keys -> same_key a b = true -> a = b).
  { intros a b Ha Hb. apply (Permutation_in _ Hperm) in Ha, Hb.
    apply (distinct_keys_eq (dedup (filter notnull col))); auto. apply dedup_distinct. }
  assert (Hnames : map name series = map Pld keys).
  { clear - Hs L. induction Hs as [|k s ks ss Hk _ IH]; [reflexivity|].
    simpl. apply individual_series_inv in Hk. destruct Hk as [-> _]. now rewrite IH. }
  assert (Hlen : List.length (flat_map points series)
                 = List.length (flat_map (fun k => group (rows df) "pld" k) keys)).
  { clear - Hs L. induction Hs as [|k s ks ss Hk _ IH]; [reflexivity|].
    simpl. rewrite !length_app, IH. apply individual_series_inv in Hk.
    destruct Hk as [_ ->]. reflexivity. }
  split.
  - rewrite Hnames. clear - Hnd. induction Hnd as [|k ks Hk _ IH]; simpl; constructor; auto.
    rewrite in_map_iff. intros [y [[= ->] Hy]]. contradiction.
  - rewrite Hlen. apply points_count; auto.
    intros r Hr Hn.
    assert (Hf : Forall (fun v => hashable v = true) (filter notnull col)).
    { apply Forall_forall. intros v Hv. apply filter_In in Hv.
      rewrite forallb_forall in Hh. now apply Hh. }
    destruct (dedup_cover _ (cell r "pld") Hf) as [y [Hy Hyx]].
    { apply filter_In. split; [|exact Hn]. unfold col.
      now apply (in_map (fun r => cell r "pld")). }
    exists y. split; [now apply (Permutation_in _ (Permutation_sym Hperm))|].
    unfold same_key in Hyx. apply orb_true_iff in Hyx.
    destruct Hyx as [Hnull | He]; [|now apply py_eqb_sym].
    apply andb_true_iff in Hnull. unfold notnull in Hn.
    destruct Hnull as [_ Hnull]. rewrite Hnull in Hn. discriminate.
Qed.

End MoreIndividualFacts.

Lemma individual_points_partition_rows_witness :
  exists series,
    render_line_chart sparse_df (individual_config (JStr "Pump") (JStr "flow")) = Ok series
    /\ NoDup (map name series)
    /\ List.length (flat_map points series) = 3%nat.
Proof.
  destruct (render_line_chart sparse_df (individual_config (JStr "Pump") (JStr "flow")))
    as [series|] eqn:E; [|vm_compute in E; discriminate].
  destruct (individual_points_partition_rows sparse_df (JStr "Pump") (JStr "flow") series E)
    as [H1 H2].
  exists series. auto.
Defined.

(** ** The table *)

Lemma has_column_In (df : DataFrame) (c : string) :
  has_column df c = true <-> In c (columns df).
Proof. apply existsb_eqb_In. Qed.

Lemma kept_columns_text (df : DataFrame) (ps : list string) :
  mapM (kept_column df) (map JStr ps)
  = Ok (map (fun s => if has_column df s then [s] else []) ps).
Proof.
  induction ps as [|s ps IH]; simpl; [reflexivity|]. now rewrite IH.
Qed.

Lemma concat_kept (df : DataFrame) (ps : list string) :
  List.concat (map (fun s => if has_column df s then [s] else []) ps)
  = filter (has_column df) ps.
Proof.
  induction ps as [|s ps IH]; simpl; [reflexivity|].
  rewrite IH. now destruct (has_column df s).
Qed.

Lemma render_table_text (df : DataFrame) (asset_type : json) (ps : list string) :
  render_table df (tabular_config asset_type ps)
  = if has_column df "timestamp" && has_column df "pld"
    then Ok (project df ("timestamp" :: "pld" :: filter (has_column df) ps))
    else Raise KeyError.
Proof.
  unfold render_table.
  change (getitem (tabular_config asset_type ps) "asset_type") with (Ok asset_type).
  change (getitem (tabular_config asset_type ps) "parameters")
    with (Ok (JList (map JStr ps))).
  simpl. rewrite kept_columns_text. simpl. rewrite concat_kept.
  assert (Hk : forallb (has_column df) (filter (has_column df) ps) = true).
  { apply forallb_forall. intros c Hc. now apply filter_In in Hc. }
  rewrite Hk, !andb_true_r.
  destruct (has_column df "timestamp"), (has_column df "pld"); reflexivity.
Qed.

(** X11. The table of a configuration with a list of labels: it raises
    [KeyError] when the frame lacks [timestamp] or [pld]; otherwise it shows
    [timestamp], [pld] and then the selected labels that are columns of the
    frame, in the order of the selection, the others being dropped without an
    error, with one line per row of the frame in the order of the frame. *)
Theorem table_projection (df : DataFrame) (asset_type : json) (ps : list string) :
  (has_column df "timestamp" && has_column df "pld" = false ->
   render_table df (tabular_config asset_type ps) = Raise KeyError)
  /\ (has_column df "timestamp" && has_column df "pld" = true ->
      exists table,
        render_table df (tabular_config asset_type ps) = Ok table
        /\ header table = "timestamp" :: "pld" :: filter (has_column df) ps
        /\ List.length (body table) = List.length (rows df)
        /\ forall i r, nth_error (rows df) i = Some r ->
                       nth_error (body table) i
                       = Some (map (fun c => row_value c r) (header table))).
Proof.
  rewrite render_table_text. split; intros ->; [reflexivity|].
  eexists. split; [reflexivity|]. simpl. split; [reflexivity|]. split.
  - apply length_map.
  - intros i r Hi. rewrite nth_error_map, Hi. reflexivity.
Qed.

Lemma table_projection_witness :
  render_table pd_DataFrame (tabular_config (JStr "Pump") ["flow"]) = Raise KeyError
  /\ exists table,
       render_table upload_example_df (tabular_config (JStr "Pump") ["flow"; "speed"])
       = Ok table
       /\ header table = ["timestamp"; "pld"; "flow"]
       /\ List.length (body table) = 2%nat.
Proof.
  destruct (table_projection pd_DataFrame (JStr "Pump") ["flow"]) as [H _].
  destruct (table_projection upload_example_df (JStr "Pump") ["flow"; "speed"]) as [_ H'].
  destruct (H' eq_refl) as (table & H1 & H2 & H3 & _).
  split; [apply H; reflexivity|]. exists table. auto.
Defined.

Lemma multiselect_text (cols : list string) (choice : list nat) :
  multiselect (map JStr cols) choice = map JStr (picked_columns cols choice).
Proof.
  unfold multiselect, picked_columns.
  induction choice as [|i choice IH]; simpl; [reflexivity|].
  rewrite map_app, IH, nth_error_map. now destruct (nth_error cols i).
Qed.

Lemma picked_columns_In (cols : list string) (choice : list nat) (c : string) :
  In c (picked_columns cols choice) -> In c cols.
Proof.
  unfold picked_columns. rewrite in_flat_map. intros [i [_ Hc]].
  destruct (nth_error cols i) eqn:E; [|contradiction].
  destruct Hc as [<- | []]. eapply nth_error_In; eauto.
Qed.

Lemma filter_all {A} (p : A -> bool) (l : list A) :
  (forall x, In x l -> p x = true) -> filter p l = l.
Proof.
  induction l as [|x l IH]; simpl; intros H; [reflexivity|].
  rewrite (H x) by auto. rewrite IH; auto.
Qed.

Section DialogTableFacts.
Context {P : Pandas} {L : PandasLaws P}.

(** X12. A table configured in the dialog on a loaded dataset: for any asset
    type and columns picked, and any dates, the chart is rendered without an
    error and shows [timestamp], [pld] and every picked column, none being
    dropped. *)
Theorem dialog_table_shows_all_picked (f : UploadedFile) (df : DataFrame) (w : Widgets)
    (cfg : dict) (from_date to_date : Z) :
  ingest f = Loaded df ->
  chart_type_choice w = 1%nat ->
  dialog_config df w = Ok cfg ->
  exists shown table,
    chart_df df cfg from_date to_date = Ok shown
    /\ render_table shown cfg = Ok table
    /\ header table
       = "timestamp" :: "pld" :: picked_columns (columns df) (parameters_choice w)
    /\ List.length (body table) = List.length (rows shown).
Proof.
  intros Hl Hc Hd.
  destruct (loaded_columns _ _ Hl) as (_ & Hpld & _ & Hts & _).
  unfold dialog_config in Hd.
  destruct (unique df "asset_type") as [asset_types|]; [|discriminate].
  simpl in Hd. rewrite Hc in Hd. simpl in Hd.
  change (py_eqb (JStr "Tabular Data") (JStr "Line Chart")) with false in Hd.
  change (py_eqb (JStr "Tabular Data") (JStr "Tabular Data")) with true in Hd.
  cbv iota in Hd. injection Hd as <-.
  set (a := selectbox asset_types (asset_type_choice w)).
  unfold all_cols. change (columns (modal_df df a)) with (columns df).
  rewrite multiselect_text.
  set (picked := picked_columns (columns df) (parameters_choice w)).
  change (dict_set "parameters" (JList (map JStr picked))
            (dict_set "type" (JStr "Tabular Data") (dict_set "asset_type" a [])))
    with (tabular_config a picked).
  eexists. eexists. split; [reflexivity|].
  match goal with
  | |- render_table _ ?c = _ /\ _ => change c with (tabular_config a picked)
  end.
  rewrite render_table_text.
  set (shown := {| dtypes := dtypes df; rows := _ |}).
  assert (Hcol : forall c, has_column shown c = has_column df c) by reflexivity.
  rewrite !Hcol.
  apply has_column_In in Hpld, Hts. rewrite Hpld, Hts. simpl.
  split; [reflexivity|]. simpl. split.
  - f_equal. f_equal. apply filter_all. intros c Hin. rewrite Hcol.
    apply has_column_In. now apply picked_columns_In in Hin.
  - apply length_map.
Qed.

End DialogTableFacts.

Lemma dialog_table_shows_all_picked_witness :
  exists shown table,
    chart_df upload_example_df (tabular_config (JStr "Pump") ["flow"; "pld"]) 19723 19724
    = Ok shown
    /\ render_table shown (tabular_config (JStr "Pump") ["flow"; "pld"]) = Ok table
    /\ header table = ["timestamp"; "pld"; "flow"; "pld"]
    /\ List.length (body table) = List.length (rows shown).
Proof.
  destruct (dialog_table_shows_all_picked (Content (JList upload_example)) upload_example_df
              table_widgets (tabular_config (JStr "Pump") ["flow"; "pld"]) 19723 19724)
    as (shown & table & H1 & H2 & H3 & H4); try (vm_compute; reflexivity).
  exists shown, table. auto.
Defined.

(** ** The gauge *)

Lemma selectbox_In (options : list json) (choice : nat) :
  options <> [] -> In (selectbox options choice) options.
Proof.
  intros Hne. unfold selectbox.
  destruct (Nat.lt_ge_cases choice (List.length options)) as [H | H].
  - now apply nth_In.
  - rewrite nth_overflow by exact H. destruct options; [congruence | now left].
Qed.

Lemma last_In {A} (l : list A) (d : A) : l <> [] -> In (last l d) l.
Proof.
  induction l as [|a l IH]; [congruence|]. intros _.
  destruct l as [|b l]; [now left|]. right. apply IH. discriminate.
Qed.

Lemma StronglySorted_last {A} (R : A -> A -> Prop) (l : list A) (d x : A) :
  StronglySorted R l -> In x l -> x = last l d \/ R x (last l d).
Proof.
  induction 1 as [|a l Hs IH Ha]; [contradiction|].
  intros Hx. destruct l as [|b l].
  - destruct Hx as [<- | []]. now left.
  - change (last (a :: b :: l) d) with (last (b :: l) d).
    destruct Hx as [<- | Hx]; [|now apply IH].
    right. rewrite Forall_forall in Ha. apply Ha. apply last_In. discriminate.
Qed.

Section GaugeFacts.
Context {P : Pandas} {L : PandasLaws P}.

(** What the gauge does for a selected asset that is true and not missing. *)
Lemma gauge_selected (df : DataFrame) (config : dict) (param : string) (a : json)
    (pld_list : list json) (choice : nat) :
  dict_get "parameter" config = Some (JStr param) ->
  dict_get "asset_type" config = Some a ->
  unique df "pld" = Ok pld_list ->
  pld_list <> [] ->
  truthy (column_is_number df "pld") (selectbox pld_list choice) = true ->
  notnull (selectbox pld_list choice) = true ->
  exists r,
    render_gauge df config choice
    = (if has_column df param
       then Ok (Dial (row_value param r)
                     (dict_get_or "min_val" (JNum (0 # 1)) config)
                     (dict_get_or "max_val" (JNum (100 # 1)) config))
       else Ok NoData)
    /\ In r (rows df)
    /\ py_eqb (cell r "pld") (selectbox pld_list choice) = true
    /\ forall r', In r' (rows df) ->
                  py_eqb (cell r' "pld") (selectbox pld_list choice) = true ->
                  time_le (time r') (time r).
Proof.
  intros Hp Ha Hu Hne Ht Hn.
  set (selected := selectbox pld_list choice) in *.
  assert (Hsel : In selected pld_list) by now apply selectbox_In.
  assert (Hrow : exists r0, In r0 (group (rows df) "pld" selected)).
  { unfold unique in Hu. destruct (negb (has_column df "pld")); [discriminate|].
    destruct (forallb hashable (map (fun r => cell r "pld") (rows df))) eqn:Hh;
      [|discriminate].
    injection Hu as <-. apply dedup_In in Hsel.
    rewrite forallb_forall in Hh. pose proof (Hh _ Hsel) as Hhash.
    apply in_map_iff in Hsel. destruct Hsel as [r0 [E Hr0]].
    exists r0. apply filter_In. split; [exact Hr0|]. rewrite E.
    now apply py_eqb_refl. }
  destruct Hrow as [r0 Hr0].
  set (g := sort_values (group (rows df) "pld" selected)).
  assert (Hg0 : In r0 g)
    by now apply (Permutation_in _ (Permutation_sym (sort_values_perm _))).
  assert (Hgne : g <> []) by (intros E; rewrite E in Hg0; contradiction).
  destruct g as [|first rest] eqn:Eg; [congruence|].
  set (r := last (first :: rest) first).
  assert (Hr : In r (first :: rest)) by (apply last_In; discriminate).
  assert (Hr' : In r (rows df) /\ py_eqb (cell r "pld") selected = true).
  { rewrite <- Eg in Hr. unfold g in Hr.
    apply (Permutation_in _ (sort_values_perm _)) in Hr. now apply filter_In in Hr. }
  exists r. split; [|split; [tauto|split; [tauto|]]].
  - unfold render_gauge, getitem. rewrite Hp, Ha. simpl. rewrite Hu. simpl.
    destruct pld_list as [|p0 ps]; [congruence|].
    fold selected. rewrite Ht. fold g. rewrite Eg. fold r.
    destruct (has_column df param); reflexivity.
  - intros r' Hin' Hk'.
    assert (Hg' : In r' (first :: rest)).
    { rewrite <- Eg. unfold g.
      apply (Permutation_in _ (Permutation_sym (sort_values_perm _))).
      apply filter_In. auto. }
    assert (Hs : StronglySorted (fun a b => time_le (time a) (time b)) (first :: rest)).
    { rewrite <- Eg. apply sort_values_sorted. }
    destruct (StronglySorted_last _ _ first r' Hs Hg') as [-> | H]; [|exact H].
    apply time_le_refl.
Qed.

(** X13. The gauge of an asset that is in the list, true and not missing,
    for a parameter that is a column: the dial is drawn; its value is the
    cell, missing or not, of a row of that asset that no other row of the
    asset is later than; its bounds are [min_val] and [max_val] as the
    configuration has them, 0 and 100 where it has none. *)
Theorem gauge_shows_latest_row (df : DataFrame) (config : dict) (param : string) (a : json)
    (pld_list : list json) (choice : nat) :
  dict_get "parameter" config = Some (JStr param) ->
  dict_get "asset_type" config = Some a ->
  unique df "pld" = Ok pld_list ->
  pld_list <> [] ->
  truthy (column_is_number df "pld") (selectbox pld_list choice) = true ->
  notnull (selectbox pld_list choice) = true ->
  has_column df param = true ->
  exists r,
    render_gauge df config choice
    = Ok (Dial (row_value param r)
               (dict_get_or "min_val" (JNum (0 # 1)) config)
               (dict_get_or "max_val" (JNum (100 # 1)) config))
    /\ In r (rows df)
    /\ py_eqb (cell r "pld") (selectbox pld_list choice) = true
    /\ forall r', In r' (rows df) ->
                  py_eqb (cell r' "pld") (selectbox pld_list choice) = true ->
                  time_le (time r') (time r).
Proof.
  intros Hp Ha Hu Hne Ht Hn Hc.
  destruct (gauge_selected df config param a pld_list choice Hp Ha Hu Hne Ht Hn)
    as (r & H & Hr). rewrite Hc in H. eauto.
Qed.

(** X14. When the gauge draws no dial.  A frame without rows gives the
    warning that no asset was found.  An asset whose [pld] is false (the
    empty text, the number 0) is passed over in silence.  For an asset that
    is true and not missing, the note "no data" appears exactly when the
    parameter is not a column of the frame: the list of assets being taken
    from the same rows, the asset always has a row. *)
Theorem gauge_without_dial (df : DataFrame) (config : dict) (param : string) (a : json)
    (choice : nat) :
  dict_get "parameter" config = Some (JStr param) ->
  dict_get "asset_type" config = Some a ->
  (has_column df "pld" = true -> rows df = [] ->
   render_gauge df config choice = Ok NoAssets)
  /\ (forall pld_list,
        unique df "pld" = Ok pld_list -> pld_list <> [] ->
        truthy (column_is_number df "pld") (selectbox pld_list choice) = false ->
        render_gauge df config choice = Ok NotSelected)
  /\ (forall pld_list,
        unique df "pld" = Ok pld_list -> pld_list <> [] ->
        truthy (column_is_number df "pld") (selectbox pld_list choice) = true ->
        notnull (selectbox pld_list choice) = true ->
        (render_gauge df config choice = Ok NoData <-> has_column df param = false)).
Proof.
  intros Hp Ha. split; [|split].
  - intros Hc Hr. unfold render_gauge, getitem, unique. rewrite Hp, Ha, Hc, Hr. reflexivity.
  - intros pld_list Hu Hne Ht. unfold render_gauge, getitem.
    rewrite Hp, Ha. simpl. rewrite Hu. simpl.
    destruct pld_list; [congruence|]. now rewrite Ht.
  - intros pld_list Hu Hne Ht Hn.
    destruct (gauge_selected df config param a pld_list choice Hp Ha Hu Hne Ht Hn)
      as (r & H & _). rewrite H.
    destruct (has_column df param); split; intros E; try discriminate; reflexivity.
Qed.

End GaugeFacts.

Lemma gauge_shows_latest_row_witness :
  exists r,
    render_gauge sparse_df gauge_config 0
    = Ok (Dial (row_value "flow" r) (JNum (100 # 1)) (JNum (0 # 1)))
    /\ In r (rows sparse_df)
    /\ cell r "pld" = JStr "A1" /\ time r = Some 1704182400000000000
    /\ row_value "flow" r = Val JNull.
Proof.
  destruct (gauge_shows_latest_row sparse_df gauge_config "flow" (JStr "Pump")
              [JStr "A1"; JStr "A2"] 0)
    as (r & H & Hr & _); try reflexivity; try discriminate.
  exists r. split; [exact H|]. split; [exact Hr|].
  vm_compute in H. injection H as H.
  vm_compute in Hr. destruct Hr as [<- | [<- | [<- | []]]]; try discriminate; auto.
Defined.

Lemma gauge_without_dial_witness :
  render_gauge {| dtypes := dtypes sparse_df; rows := [] |} gauge_config 0 = Ok NoAssets
  /\ (render_gauge sparse_df [("parameter", JStr "speed"); ("asset_type", JStr "Pump")] 0
      = Ok NoData <-> has_column sparse_df "speed" = false).
Proof.
  destruct (gauge_without_dial {| dtypes := dtypes sparse_df; rows := [] |} gauge_config
              "flow" (JStr "Pump") 0 eq_refl eq_refl) as (H1 & _).
  destruct (gauge_without_dial sparse_df
              [("parameter", JStr "speed"); ("asset_type", JStr "Pump")]
              "speed" (JStr "Pump") 0 eq_refl eq_refl) as (_ & _ & H3).
  split; [apply H1; reflexivity|].
  apply (H3 [JStr "A1"; JStr "A2"]); try reflexivity. discriminate.
Defined.

(** ** The parameter picked in the dialog *)

Lemma dialog_big_number (df : DataFrame) (w : Widgets) (asset_types : list json) :
  chart_type_choice w = 2%nat ->
  unique df "asset_type" = Ok asset_types ->
  dialog_config df w
  = Ok (big_number_config
          (selectbox asset_types (asset_type_choice w))
          (selectbox (map JStr (numeric_cols df)) (parameter_choice w))
          (selectbox [JStr "sum"; JStr "mean"] (aggregation_choice w))).
Proof. intros Hc Hu. unfold dialog_config. rewrite Hu. simpl. rewrite Hc. reflexivity. Qed.

Lemma dialog_individual (df : DataFrame) (w : Widgets) (asset_types : list json) :
  chart_type_choice w = 0%nat ->
  display_mode_choice w = 0%nat ->
  unique df "asset_type" = Ok asset_types ->
  dialog_config df w
  = Ok (individual_config
          (selectbox asset_types (asset_type_choice w))
          (selectbox (map JStr (numeric_cols df)) (parameter_choice w))).
Proof.
  intros Hc Hm Hu. unfold dialog_config. rewrite Hu. simpl. rewrite Hc, Hm. reflexivity.
Qed.

Lemma selectbox_nil (choice : nat) : selectbox [] choice = JNull.
Proof. unfold selectbox. now destruct choice. Qed.

Lemma dialog_config_unique (df : DataFrame) (w : Widgets) (cfg : dict) :
  dialog_config df w = Ok cfg -> exists asset_types, unique df "asset_type" = Ok asset_types.
Proof.
  unfold dialog_config. destruct (unique df "asset_type"); [eauto | discriminate].
Qed.

Lemma numeric_cols_columns (df : DataFrame) (c : string) :
  In c (numeric_cols df) -> has_column df c = true.
Proof.
  unfold numeric_cols. intros H. apply in_map_iff in H. destruct H as [[c' d] [<- H]].
  apply filter_In in H. destruct H as [H _]. apply has_column_In.
  unfold columns. now apply (in_map fst) in H.
Qed.

Section PickedParameterFacts.
Context {P : Pandas} {L : PandasLaws P}.

(** X15. A dataset without a numeric column: the dialog still adds line
    charts and big numbers, with no parameter ([None]).  Such a big number
    shows "N/A" on every frame; such an individual line chart raises
    [KeyError] on every frame that has an asset. *)
Theorem no_numeric_column_no_parameter (df : DataFrame) (w : Widgets) (cfg : dict) :
  numeric_cols df = [] ->
  dialog_config df w = Ok cfg ->
  (chart_type_choice w = 2%nat ->
   dict_get "parameter" cfg = Some JNull
   /\ forall shown, render_big_number shown cfg = Ok NA)
  /\ (chart_type_choice w = 0%nat -> display_mode_choice w = 0%nat ->
      dict_get "parameter" cfg = Some JNull
      /\ forall shown k ks,
           groupby_keys shown "pld" = Ok (k :: ks) ->
           render_line_chart shown cfg = Raise KeyError).
Proof.
  intros Hn Hd. destruct (dialog_config_unique _ _ _ Hd) as [asset_types Hu].
  split.
  - intros Hc. rewrite (dialog_big_number df w asset_types Hc Hu), Hn in Hd.
    simpl map in Hd. rewrite selectbox_nil in Hd.
    injection Hd as <-. split; [reflexivity|].
    intros shown. unfold render_big_number. simpl. now rewrite andb_false_r.
  - intros Hc Hm. rewrite (dialog_individual df w asset_types Hc Hm Hu), Hn in Hd.
    simpl map in Hd. rewrite selectbox_nil in Hd.
    injection Hd as <-. split; [reflexivity|].
    intros shown k ks Hk. unfold render_line_chart. simpl. rewrite Hk. simpl.
    assert (Hrow : exists r, In r (group (rows shown) "pld" k)).
    { unfold groupby_keys in Hk.
      destruct (negb (has_column shown "pld")); [discriminate|].
      destruct (forallb hashable (map (fun r => cell r "pld") (rows shown))) eqn:Hh;
        [|discriminate].
      apply (key_has_row shown k Hh). unfold pld_column.
      injection Hk as ->. now left. }
    destruct Hrow as [r Hr].
    apply (Permutation_in _ (Permutation_sym (sort_values_perm _))) in Hr.
    unfold individual_series at 1.
    destruct (sort_values (group (rows shown) "pld" k)); [contradiction|]. reflexivity.
Qed.

(** X16. A big number whose parameter was picked in the dialog among the
    numeric columns of the dataset: on a slice of that dataset, "N/A" is
    shown exactly when the slice has no rows. *)
Theorem picked_big_number_NA_iff_no_rows (df : DataFrame) (w : Widgets) (cfg : dict)
    (from_date to_date : Z) (shown : DataFrame) :
  numeric_cols df <> [] ->
  chart_type_choice w = 2%nat ->
  dialog_config df w = Ok cfg ->
  chart_df df cfg from_date to_date = Ok shown ->
  (render_big_number shown cfg = Ok NA <-> rows shown = []).
Proof.
  intros Hn Hc Hd Hs. destruct (dialog_config_unique _ _ _ Hd) as [asset_types Hu].
  rewrite (dialog_big_number df w asset_types Hc Hu) in Hd. injection Hd as <-.
  set (p := selectbox (map JStr (numeric_cols df)) (parameter_choice w)) in *.
  assert (Hp : exists c, p = JStr c /\ has_column df c = true).
  { assert (Hin : In p (map JStr (numeric_cols df))).
    { apply selectbox_In. destruct (numeric_cols df); [congruence | discriminate]. }
    apply in_map_iff in Hin. destruct Hin as [c [<- Hc']].
    exists c. split; [reflexivity | now apply numeric_cols_columns]. }
  destruct Hp as [c [Ep Hcol]].
  unfold chart_df in Hs. simpl in Hs. injection Hs as <-.
  set (shown := {| dtypes := dtypes df; rows := _ |}).
  assert (Hin : in_columns shown p = true) by (rewrite Ep; exact Hcol).
  assert (He : empty shown = match rows shown with [] => true | _ => false end).
  { unfold empty. simpl. apply has_column_In in Hcol. unfold columns in Hcol.
    destruct (dtypes df); [contradiction | reflexivity]. }
  destruct (rows shown) as [|r l] eqn:Er.
  - unfold render_big_number. simpl. rewrite Hin, He. simpl.
    split; reflexivity.
  - unfold render_big_number. simpl. rewrite Hin, He. simpl.
    split; [|discriminate].
    destruct (latest_values shown p); simpl; [|discriminate].
    destruct (if py_eqb _ _ then _ else _); simpl; discriminate.
Qed.

End PickedParameterFacts.

Lemma no_numeric_column_no_parameter_witness :
  render_big_number bare_df (big_number_config (JStr "Pump") JNull (JStr "sum")) = Ok NA
  /\ render_line_chart bare_df (individual_config (JStr "Pump") JNull) = Raise KeyError.
Proof.
  destruct (no_numeric_column_no_parameter bare_df big_number_widgets
              (big_number_config (JStr "Pump") JNull (JStr "sum")) eq_refl eq_refl)
    as [H _].
  destruct (no_numeric_column_no_parameter bare_df line_widgets
              (individual_config (JStr "Pump") JNull) eq_refl eq_refl)
    as [_ H'].
  split.
  - apply (H eq_refl).
  - apply (proj2 (H' eq_refl eq_refl) bare_df (JStr "A1") []). reflexivity.
Defined.

Lemma picked_big_number_NA_iff_no_rows_witness :
  exists shown,
    chart_df upload_example_df (big_number_config (JStr "Pump") (JStr "flow") (JStr "sum"))
      19725 19725 = Ok shown
    /\ (render_big_number shown (big_number_config (JStr "Pump") (JStr "flow") (JStr "sum"))
        = Ok NA <-> rows shown = []).
Proof.
  eexists. split; [reflexivity|].
  apply (picked_big_number_NA_iff_no_rows upload_example_df big_number_widgets
           (big_number_config (JStr "Pump") (JStr "flow") (JStr "sum")) 19725 19725).
  - discriminate.
  - reflexivity.
  - reflexivity.
  - reflexivity.
Defined.

(** ** The session over a sequence of runs *)

Lemma pop_In (i : nat) (l l' : list dict) (cfg : dict) :
  pop i l = Some l' -> In cfg l' -> In cfg l.
Proof.
  unfold pop. destruct (Nat.ltb i (List.length l)); [|discriminate].
  intros [= <-]. revert i. induction l as [|a l IH]; intros i H.
  - now destruct i.
  - destruct i as [|i].
    + now right.
    + simpl in H. destruct H as [H | H]; [now left | right; eauto].
Qed.

Lemma pop_last (l : list dict) (cfg : dict) : pop (List.length l) (l ++ [cfg]) = Some l.
Proof.
  unfold pop. rewrite length_app. simpl.
  replace (Nat.ltb _ _) with true by (symmetry; apply Nat.ltb_lt; lia).
  f_equal. induction l as [|a l IH]; [reflexivity|].
  cbn [List.length firstn skipn app]. now rewrite IH.
Qed.

Section SessionFacts.
Context {P : Pandas}.

Lemma run_snoc (evs : list event) (ev : event) : run (evs ++ [ev]) = step (run evs) ev.
Proof. unfold run. now rewrite fold_left_app. Qed.

(** X17. After every sequence of uploads, presses on "Add Chart", runs of
    the dialog and removals, each chart of the session is a dictionary the
    dialog built, and while the dataset of the session has rows it is one
    the dialog built on that very dataset: no chart outlives an upload that
    brings rows. *)
Theorem charts_configured_on_dataset (evs : list event) (cfg : dict) :
  In cfg (charts (run evs)) ->
  (exists df w, dialog_config df w = Ok cfg)
  /\ (empty (data (run evs)) = false ->
      exists w, dialog_config (data (run evs)) w = Ok cfg).
Proof.
  revert cfg. induction evs as [|ev evs IH] using rev_ind; intros cfg H.
  - contradiction.
  - rewrite run_snoc in *. set (st := run evs) in *. clearbody st.
    destruct ev as [f | | w | i]; simpl in *.
    + unfold upload in *. destruct (negb (empty _)) eqn:He; simpl in *.
      * contradiction.
      * apply negb_false_iff in He. split; [now apply IH | congruence].
    + destruct (empty (data st)) eqn:He; simpl in *; rewrite ?He; now apply IH.
    + destruct (empty (data st)) eqn:He; [rewrite ?He; now apply IH|].
      destruct (show_modal st); [|rewrite ?He; now apply IH].
      unfold configure_chart_dialog in *.
      destruct (dialog_config (data st) w) as [c|] eqn:Hd; simpl in *;
        [|rewrite ?He; now apply IH].
      destruct (add_to_dashboard w); simpl in *; rewrite ?He; [|now apply IH].
      apply in_app_or in H. destruct H as [H | [<- | []]].
      * now apply IH.
      * split; eauto.
    + destruct (empty (data st)) eqn:He; [rewrite ?He; now apply IH|].
      destruct (pop i (charts st)) as [l|] eqn:Hp; simpl in *; rewrite ?He;
        [|now apply IH].
      apply IH. eapply pop_In; eauto.
Qed.

(** X18. The dialog and the removal undo each other: with the dialog open
    on a dataset with rows, "Add to Dashboard" puts the new chart last and
    closes the dialog, a further run of the dialog changes nothing, and
    removing the chart at the index of the new one gives back the chart
    list as it was. *)
Theorem remove_undoes_add (st : SessionState) (w : Widgets) (cfg : dict) :
  empty (data st) = false ->
  show_modal st = true ->
  add_to_dashboard w = true ->
  dialog_config (data st) w = Ok cfg ->
  charts (step st (Dialog w)) = charts st ++ [cfg]
  /\ show_modal (step st (Dialog w)) = false
  /\ step (step st (Dialog w)) (Dialog w) = step st (Dialog w)
  /\ charts (step (step st (Dialog w)) (Remove (List.length (charts st)))) = charts st.
Proof.
  intros He Hm Ha Hd.
  assert (Hs : step st (Dialog w)
               = {| data := data st; charts := charts st ++ [cfg]; show_modal := false |}).
  { simpl. rewrite He, Hm. unfold configure_chart_dialog. rewrite Hd. simpl. now rewrite Ha. }
  rewrite Hs. simpl. rewrite He, pop_last. now repeat split.
Qed.

End SessionFacts.

Lemma charts_configured_on_dataset_witness :
  exists w,
    dialog_config
      (data (run [Upload (Content (JList upload_example)); AddChart;
                  Dialog big_number_widgets])) w
    = Ok (big_number_config (JStr "Pump") (JStr "flow") (JStr "sum")).
Proof.
  apply (charts_configured_on_dataset
           [Upload (Content (JList upload_example)); AddChart; Dialog big_number_widgets]
           (big_number_config (JStr "Pump") (JStr "flow") (JStr "sum"))).
  - left. reflexivity.
  - reflexivity.
Defined.

Lemma remove_undoes_add_witness :
  charts (step (step {| data := upload_example_df; charts := [line_config];
                        show_modal := true |} (Dialog big_number_widgets))
            (Remove 1))
  = [line_config].
Proof.
  apply (remove_undoes_add
           {| data := upload_example_df; charts := [line_config]; show_modal := true |}
           big_number_widgets
           (big_number_config (JStr "Pump") (JStr "flow") (JStr "sum"))).
  - reflexivity.
  - reflexivity.
  - reflexivity.
  - reflexivity.
Defined.
